(** * Velvet Metal: the registration wizard

    A shallow embedding of the registration wizard (the [Register] page) and
    of the [ProfileCreation] form, with the properties of the wizard's
    specification stated over it.

    Conventions.
    - A JavaScript value that may be [undefined] or [null] is a [JsOpt]; the
      two are kept apart because the source compares with [=== null].
    - React state is a record; an event handler is a computation in the
      monad [M], which threads the component state together with the browser
      environment [Env] and may throw.
    - Remote collaborators (identity provider, relational store, blob
      storage) answer through a [Backend] record of responses; every call is
      appended to the event trace of the environment. *)

From Stdlib Require Import ZArith QArith Ascii String.
From stdpp Require Import base option list strings gmap.

Local Open Scope Z_scope.
Local Open Scope string_scope.

(** ** JavaScript values *)

Inductive JsOpt (A : Type) : Type :=
  | undefined
  | null
  | value (a : A).
Arguments undefined {A}.
Arguments null {A}.
Arguments value {A} a.

(** [x === null] *)
Definition is_null {A} (x : JsOpt A) : bool :=
  match x with null => true | _ => false end.

(** [x?.length] when [x] is an array, [undefined] or [null]. *)
Definition opt_length {A} (x : JsOpt (list A)) : option Z :=
  match x with
  | value l => Some (Z.of_nat (length l))
  | _ => None
  end.

(** Truthiness of a number that may be [undefined]. *)
Definition truthy_num (n : option Z) : bool :=
  match n with
  | Some k => negb (Z.eqb k 0)
  | None => false
  end.

(** Truthiness of a boolean that may be [undefined]. *)
Definition truthy_bool (b : option bool) : bool :=
  match b with
  | Some true => true
  | _ => false
  end.

(** Truthiness of a string. *)
Definition truthy_str (s : string) : bool :=
  match s with
  | EmptyString => false
  | _ => true
  end.

(** ** Data model *)

Inductive Step : Type := account | subscription | services.

#[global] Instance Step_eq_dec : EqDecision Step.
Proof. solve_decision. Defined.

Definition step_name (s : Step) : string :=
  match s with
  | account => "account"
  | subscription => "subscription"
  | services => "services"
  end.

Record SubscriptionTier : Type := {
  tier_id : string;
  tier_name : string;
  tier_tier : string;
  tier_price : Q;
}.

Record File : Type := {
  file_name : string;
  file_type : string;
  file_size : Z;
}.

Record User : Type := { user_id : string }.

(** A row of [user_services] as selected by the sync-status query:
    [select("service, last_library_sync")]. *)
Record SyncStatus : Type := {
  service : string;
  last_library_sync : JsOpt string;
}.

(** ** Sync status and the terminal action (Services step) *)

(** What the component body reads on a render of the Services step. The
    element type of [connectedServices] is left open: only its length is
    used. *)
Record ServicesView (A : Type) : Type := {
  user : option User;
  connectedServices : JsOpt (list A);
  syncStatuses : JsOpt (list SyncStatus);
}.
Arguments user {A} _.
Arguments connectedServices {A} _.
Arguments syncStatuses {A} _.

(** [!!user?.id] *)
Definition has_user_id (u : option User) : bool :=
  match u with
  | Some usr => truthy_str (user_id usr)
  | None => false
  end.

(** The [queryFn] of the sync-status query; [rows] is the [data] field of the
    store's answer ([null] on a store error, which the code does not look at). *)
Definition syncStatuses_queryFn (u : option User) (rows : JsOpt (list SyncStatus))
  : JsOpt (list SyncStatus) :=
  if has_user_id u then rows else null.

(** Options handed to [useQuery] for the sync-status query. [refetchInterval]
    is [Some ms] for a number and [None] for [false]. *)
Record QueryOptions : Type := {
  enabled : bool;
  refetchInterval : option Z;
}.

Definition syncStatuses_options {A} (v : ServicesView A) : QueryOptions :=
  {| enabled := has_user_id (user v);
     refetchInterval :=
       if truthy_num (opt_length (connectedServices v)) then Some 2000 else None |}.

(** The period at which the query layer refetches: none while the query is
    disabled or [refetchInterval] is [false]. *)
Definition polling_interval (o : QueryOptions) : option Z :=
  if enabled o then refetchInterval o else None.

(** The wizard observed over successive renders: the polling period in force
    on each of them. *)
Definition polling_run {A} (renders : list (ServicesView A)) : list (option Z) :=
  map (fun v => polling_interval (syncStatuses_options v)) renders.

(** [syncStatuses?.some((status) => status.last_library_sync === null)] *)
Definition isAnySyncing (ss : JsOpt (list SyncStatus)) : option bool :=
  match ss with
  | value rows => Some (existsb (fun status => is_null (last_library_sync status)) rows)
  | _ => None
  end.

(** The [disabled] prop of the terminal button:
    [!connectedServices?.length || isAnySyncing]. *)
Definition finish_disabled_prop {A} (v : ServicesView A) : option bool :=
  if negb (truthy_num (opt_length (connectedServices v)))
  then Some true
  else isAnySyncing (syncStatuses v).

Definition finish_disabled {A} (v : ServicesView A) : bool :=
  truthy_bool (finish_disabled_prop v).

(** Label of the terminal button. *)
Definition finish_label {A} (v : ServicesView A) : string :=
  if truthy_bool (isAnySyncing (syncStatuses v)) then "Syncing Library..."
  else if negb (truthy_num (opt_length (connectedServices v)))
       then "Connect a Service First"
       else "Go to App".

(** ** The navigable location: [URLSearchParams]

    An ordered list of pairs, duplicates allowed. *)

Abbreviation SearchParams := (list (string * string)).

(** [params.get(k)]: the value of the first pair named [k], else [null]. *)
Fixpoint usp_get (k : string) (ps : SearchParams) : option string :=
  match ps with
  | [] => None
  | (k', v) :: rest => if decide (k' = k) then Some v else usp_get k rest
  end.

(** [params.delete(k)] *)
Definition usp_delete (k : string) (ps : SearchParams) : SearchParams :=
  filter (fun p => p.1 <> k) ps.

(** [params.set(k, v)]: the first pair named [k] takes the value [v] and the
    other pairs named [k] are removed; with no such pair, [(k, v)] is
    appended. *)
Fixpoint usp_set (k v : string) (ps : SearchParams) : SearchParams :=
  match ps with
  | [] => [(k, v)]
  | (k', v') :: rest =>
      if decide (k' = k) then (k, v) :: usp_delete k rest
      else (k', v') :: usp_set k v rest
  end.

(** ** Browser environment and collaborators *)

(** An object URL handed out by [URL.createObjectURL]; the browser makes each
    one unique, which the counter of [Env] reproduces. *)
Definition ObjectURL : Type := nat.

Inductive Event : Type :=
  | EToastError (msg : string)
  | EConsoleError (msg : string)
  | ERegister (email password display_name : string)
  | EGetUser
  | EUploadFile (bucket path : string) (f : File)
  | EUpdateAvatarUrl (id avatar_url : string)
  | EOnSubmit (email display_name password confirmPassword : string)
              (avatar : option File).

#[global] Instance File_eq_dec : EqDecision File.
Proof. solve_decision. Defined.

#[global] Instance Event_eq_dec : EqDecision Event.
Proof. solve_decision. Defined.

Record Env : Type := {
  location_pathname : string;
  location_search : SearchParams;
  sessionStorage : gmap string string;
  object_urls : gset ObjectURL;       (* created and not yet revoked *)
  object_url_counter : nat;
  trace : list Event;                 (* oldest first *)
}.

(** A value that was thrown, as far as a [catch] block of this code looks at
    it: [None] for [null] or [undefined], [Some m] for any other value, [m]
    being what its [message] reads (the empty string when it has none, which
    is as falsy). *)
Definition Thrown : Type := option string.

(** The [TypeError] of reading a property of [null] or [undefined]. *)
Definition type_error : Thrown :=
  Some "Cannot read properties of null (reading 'message')".

(** Answers of the remote collaborators. *)
Record Backend : Type := {
  (* [register(email, password, display_name)]: [Some e] when it rejects
     with the value [e] *)
  register_answer : string -> string -> string -> option Thrown;
  (* [supabase.auth.getUser()]: the [user] of the answer *)
  getUser_answer : option User;
  (* [storage.uploadFile(bucket, path, file)]: the public URL, or the thrown
     error *)
  uploadFile_answer : string -> string -> File -> string + string;
  (* the [error] of the profile update *)
  update_answer : string -> string -> option string;
  (* [String(Math.random())] *)
  random_token : string;
}.

(** A query of the relational store, as the query builder describes it:
    [from(table).select(columns)], with [.order(column)] when given. *)
Record Query : Type := {
  query_from : string;
  query_select : string;
  query_order : option string;
}.

(** ** Handlers as computations *)

Record World (C : Type) : Type := { comp : C; env : Env }.
Arguments comp {C} _.
Arguments env {C} _.

(** A handler runs on the component state and the environment and either
    returns ([inr]) or throws a value ([inl]). *)
Definition M (C A : Type) : Type := World C -> (Thrown + A) * World C.

#[global] Instance M_ret {C} : MRet (M C) :=
  fun A a w => (inr a, w).

#[global] Instance M_bind {C} : MBind (M C) :=
  fun A B k m w =>
    match m w with
    | (inr a, w') => k a w'
    | (inl e, w') => (inl e, w')
    end.

Definition throw {C A} (e : Thrown) : M C A := fun w => (inl e, w).

(** [try { m } catch (error) { h error }] *)
Definition try_catch {C A} (m : M C A) (h : Thrown -> M C A) : M C A :=
  fun w =>
    match m w with
    | (inl e, w') => h e w'
    | r => r
    end.

(** [try { m } finally { f }] *)
Definition try_finally {C A} (m : M C A) (f : M C unit) : M C A :=
  fun w =>
    match m w with
    | (r, w') =>
        match f w' with
        | (inl e, w'') => (inl e, w'')
        | (inr _, w'') => (r, w'')
        end
    end.

Definition get_comp {C} : M C C := fun w => (inr (comp w), w).

Definition modify_comp {C} (f : C -> C) : M C unit :=
  fun w => (inr tt, {| comp := f (comp w); env := env w |}).

Definition modify_env {C} (f : Env -> Env) : M C unit :=
  fun w => (inr tt, {| comp := comp w; env := f (env w) |}).

Definition emit {C} (ev : Event) : M C unit :=
  modify_env (fun e =>
    {| location_pathname := location_pathname e;
       location_search := location_search e;
       sessionStorage := sessionStorage e;
       object_urls := object_urls e;
       object_url_counter := object_url_counter e;
       trace := (trace e ++ [ev])%list |}).

Definition toast_error {C} (msg : string) : M C unit := emit (EToastError msg).
Definition console_error {C} (msg : string) : M C unit := emit (EConsoleError msg).

(** [URL.createObjectURL(file)] *)
Definition createObjectURL {C} (f : File) : M C ObjectURL :=
  fun w =>
    let e := env w in
    let u := object_url_counter e in
    (inr u,
     {| comp := comp w;
        env := {| location_pathname := location_pathname e;
                  location_search := location_search e;
                  sessionStorage := sessionStorage e;
                  object_urls := {[u]} ∪ object_urls e;
                  object_url_counter := S u;
                  trace := trace e |} |}).

(** [URL.revokeObjectURL(url)] *)
Definition revokeObjectURL {C} (u : ObjectURL) : M C unit :=
  modify_env (fun e =>
    {| location_pathname := location_pathname e;
       location_search := location_search e;
       sessionStorage := sessionStorage e;
       object_urls := object_urls e ∖ {[u]};
       object_url_counter := object_url_counter e;
       trace := trace e |}).

(** [navigate(`?${params}`, { replace: true })]: the search part of the
    location becomes [params] (serialised, and parsed back on the next read). *)
Definition navigate_search {C} (ps : SearchParams) : M C unit :=
  modify_env (fun e =>
    {| location_pathname := location_pathname e;
       location_search := ps;
       sessionStorage := sessionStorage e;
       object_urls := object_urls e;
       object_url_counter := object_url_counter e;
       trace := trace e |}).

(** [navigate(path)] *)
Definition navigate {C} (path : string) : M C unit :=
  modify_env (fun e =>
    {| location_pathname := path;
       location_search := [];
       sessionStorage := sessionStorage e;
       object_urls := object_urls e;
       object_url_counter := object_url_counter e;
       trace := trace e |}).

(** [sessionStorage.removeItem(key)] *)
Definition sessionStorage_removeItem {C} (key : string) : M C unit :=
  modify_env (fun e =>
    {| location_pathname := location_pathname e;
       location_search := location_search e;
       sessionStorage := delete key (sessionStorage e);
       object_urls := object_urls e;
       object_url_counter := object_url_counter e;
       trace := trace e |}).

(** [sessionStorage.setItem(key, v)] *)
Definition sessionStorage_setItem {C} (key v : string) : M C unit :=
  modify_env (fun e =>
    {| location_pathname := location_pathname e;
       location_search := location_search e;
       sessionStorage := <[key := v]> (sessionStorage e);
       object_urls := object_urls e;
       object_url_counter := object_url_counter e;
       trace := trace e |}).

(** The state and environment a handler leaves behind. *)
Definition exec {C A} (m : M C A) (w : World C) : World C := (m w).2.

(** The toasts shown so far. *)
Definition toasts (e : Env) : list string :=
  omap (fun ev => match ev with EToastError msg => Some msg | _ => None end) (trace e).

(** [file.size > 2 * 1024 * 1024] *)
Definition too_large (f : File) : bool := (file_size f >? 2 * 1024 * 1024)%Z.

(** [file.type.startsWith("image/")] *)
Definition is_image (f : File) : bool := String.prefix "image/" (file_type f).

(** [name.split(".").pop()]: what follows the last dot, the whole name when it
    has none. *)
Fixpoint split_pop_from (acc s : string) : string :=
  match s with
  | EmptyString => acc
  | String c rest =>
      if Ascii.eqb c "."%char then split_pop_from "" rest
      else split_pop_from (acc ++ String c "") rest
  end.

Definition split_pop (s : string) : string := split_pop_from "" s.

(** The [name] attribute of the four text inputs of the account form, which
    are the only elements wired to [handleChange]. *)
Inductive InputName : Type :=
  | display_name_input
  | email_input
  | password_input
  | confirmPassword_input.

#[global] Instance InputName_eq_dec : EqDecision InputName.
Proof. solve_decision. Defined.

Definition input_name (n : InputName) : string :=
  match n with
  | display_name_input => "display_name"
  | email_input => "email"
  | password_input => "password"
  | confirmPassword_input => "confirmPassword"
  end.

(** ** The [Register] page *)

Module Register.

Record FormData : Type := {
  email : string;
  display_name : string;
  password : string;
  confirmPassword : string;
  selectedTier : string;
  avatar : option File;
}.

Record State : Type := {
  loading : bool;
  currentStep : Step;
  formData : FormData;
  previewUrl : option ObjectURL;
  isDragging : bool;
}.

Definition setLoading (b : bool) : M State unit :=
  modify_comp (fun s =>
    {| loading := b; currentStep := currentStep s; formData := formData s;
       previewUrl := previewUrl s; isDragging := isDragging s |}).

Definition setCurrentStep (st : Step) : M State unit :=
  modify_comp (fun s =>
    {| loading := loading s; currentStep := st; formData := formData s;
       previewUrl := previewUrl s; isDragging := isDragging s |}).

Definition setFormData (f : FormData -> FormData) : M State unit :=
  modify_comp (fun s =>
    {| loading := loading s; currentStep := currentStep s;
       formData := f (formData s);
       previewUrl := previewUrl s; isDragging := isDragging s |}).

Definition setPreviewUrl (u : option ObjectURL) : M State unit :=
  modify_comp (fun s =>
    {| loading := loading s; currentStep := currentStep s;
       formData := formData s;
       previewUrl := u; isDragging := isDragging s |}).

Definition setIsDragging (b : bool) : M State unit :=
  modify_comp (fun s =>
    {| loading := loading s; currentStep := currentStep s;
       formData := formData s;
       previewUrl := previewUrl s; isDragging := b |}).

(** [{ ...prev, avatar: a }] *)
Definition with_avatar (a : option File) (prev : FormData) : FormData :=
  {| email := email prev; display_name := display_name prev;
     password := password prev; confirmPassword := confirmPassword prev;
     selectedTier := selectedTier prev; avatar := a |}.

(** [{ ...prev, selectedTier: tierId }] *)
Definition with_selectedTier (tierId : string) (prev : FormData) : FormData :=
  {| email := email prev; display_name := display_name prev;
     password := password prev; confirmPassword := confirmPassword prev;
     selectedTier := tierId; avatar := avatar prev |}.

(** The initializer of [currentStep]: the [step] parameter when it names a
    step, [account] otherwise. *)
Definition step_of_name (s : string) : option Step :=
  if decide (s = "account") then Some account
  else if decide (s = "subscription") then Some subscription
  else if decide (s = "services") then Some services
  else None.

Definition initial_step (searchParams : SearchParams) : Step :=
  match usp_get "step" searchParams with
  | Some stepParam =>
      match step_of_name stepParam with
      | Some st => st
      | None => account
      end
  | None => account
  end.

Definition initial_formData : FormData :=
  {| email := ""; display_name := ""; password := ""; confirmPassword := "";
     selectedTier := ""; avatar := None |}.

Definition initial_state (searchParams : SearchParams) : State :=
  {| loading := false;
     currentStep := initial_step searchParams;
     formData := initial_formData;
     previewUrl := None;
     isDragging := false |}.

(** Effect "Update URL when step changes". *)
Definition effect_sync_url : M State unit :=
  w ← get_comp;
  e ← (fun w => (inr (env w), w));
  navigate_search (usp_set "step" (step_name (currentStep w)) (location_search e)).

(** Effect "Clear any saved step when first loading the page". *)
Definition effect_clear_saved_step : M State unit :=
  sessionStorage_removeItem "register_step".

(** First render of the page in environment [e], followed by its effects in
    the order they are declared. *)
Definition mount (e : Env) : World State :=
  exec (effect_sync_url ;; effect_clear_saved_step)
       {| comp := initial_state (location_search e); env := e |}.

(** A handler followed by the render it causes: the URL effect runs again
    whenever [currentStep] has changed, and setting the parameter to the
    value it has is without effect. *)
Definition dispatch {A} (h : M State A) : M State unit :=
  try_finally (h ;; mret tt) effect_sync_url.

(** [handleSelectTier] *)
Definition handleSelectTier (tierId : string) : M State unit :=
  setFormData (with_selectedTier tierId).

(** [handleFileUpload] *)
Definition handleFileUpload (file : File) : M State unit :=
  if too_large file then
    toast_error "Avatar image must be less than 2MB"
  else
    url ← createObjectURL file;
    setPreviewUrl (Some url) ;;
    setFormData (with_avatar (Some file)).

(** [handleFileChange]; [files0] is [e.target.files?.[0]]. *)
Definition handleFileChange (files0 : option File) : M State unit :=
  match files0 with
  | Some file => handleFileUpload file
  | None => mret tt
  end.

Definition handleDragOver : M State unit := setIsDragging true.
Definition handleDragLeave : M State unit := setIsDragging false.

(** [handleDrop]; [files0] is [e.dataTransfer.files[0]]. The callback is
    memoised once, and the [handleFileUpload] it captured reads no state. *)
Definition handleDrop (files0 : option File) : M State unit :=
  setIsDragging false ;;
  match files0 with
  | Some file =>
      if is_image file then handleFileUpload file
      else toast_error "Please upload an image file"
  | None => toast_error "Please upload an image file"
  end.

(** [removeAvatar] *)
Definition removeAvatar : M State unit :=
  s ← get_comp;
  setFormData (with_avatar None) ;;
  match previewUrl s with
  | Some u => revokeObjectURL u ;; setPreviewUrl None
  | None => mret tt
  end.

(** Unmounting the page: the component registers no cleanup. *)
Definition unmount : M State unit := mret tt.

Section WithBackend.
Variable B : Backend.

Definition auth_register (e p d : string) : M State unit :=
  emit (ERegister e p d) ;;
  match register_answer B e p d with
  | Some error => throw error
  | None => mret tt
  end.

Definition auth_getUser : M State (option User) :=
  emit EGetUser ;; mret (getUser_answer B).

Definition storage_uploadFile (bucket path : string) (f : File) : M State string :=
  emit (EUploadFile bucket path f) ;;
  match uploadFile_answer B bucket path f with
  | inl err => throw (Some err)
  | inr publicUrl => mret publicUrl
  end.

Definition profiles_update_avatar_url (id avatar_url : string)
  : M State (option string) :=
  emit (EUpdateAvatarUrl id avatar_url) ;; mret (update_answer B id avatar_url).

(** [uploadAvatar]; [None] is [null]. *)
Definition uploadAvatar (fd : FormData) (userId : string) : M State (option string) :=
  match avatar fd with
  | None => mret None
  | Some file =>
      try_catch
        (let fileExt := split_pop (file_name file) in
         let fileName := userId ++ "/" ++ random_token B ++ "." ++ fileExt in
         publicUrl ← storage_uploadFile "avatars" fileName file;
         mret (Some publicUrl))
        (fun error => console_error "Error uploading avatar:" ;; mret None)
  end.

(** [handleRegister] *)
Definition handleRegister : M State unit :=
  s ← get_comp;
  let fd := formData s in
  setLoading true ;;
  try_finally
    (try_catch
       (if decide (password fd <> confirmPassword fd) then
          toast_error "Passwords do not match"
        else
          auth_register (email fd) (password fd) (display_name fd) ;;
          newUser ← auth_getUser;
          match newUser, avatar fd with
          | Some u, Some _ =>
              avatarUrl ← uploadAvatar fd (user_id u);
              match avatarUrl with
              | Some url =>
                  if truthy_str url then
                    updateError ← profiles_update_avatar_url (user_id u) url;
                    match updateError with
                    | Some _ => console_error "Error updating profile with avatar:"
                    | None => mret tt
                    end
                  else mret tt
              | None => mret tt
              end
          | _, _ => mret tt
          end ;;
          setCurrentStep subscription)
       (fun error =>
          match error with
          | Some message =>
              toast_error (if truthy_str message then message
                           else "An error occurred during registration")
          | None => throw type_error
          end))
    (setLoading false).

End WithBackend.

(** The continue button of the Subscription step:
    [disabled={!formData.selectedTier}]. *)
Definition continue_disabled (s : State) : bool :=
  negb (truthy_str (selectedTier (formData s))).

Definition handleContinue : M State unit :=
  s ← get_comp;
  if continue_disabled s then mret tt else setCurrentStep services.

(** The back arrow, rendered unless the step is [account]; both tests read
    the step of the render the click happened on. *)
Definition handleBack : M State unit :=
  s ← get_comp;
  (if decide (currentStep s = services) then setCurrentStep subscription else mret tt) ;;
  (if decide (currentStep s = subscription) then setCurrentStep account else mret tt).

(** [handleFinish] *)
Definition handleFinish : M State unit := navigate "/home".

(** A card of the subscription step: its key, the name and price shown and
    whether it carries the selection ring. *)
Record Card : Type := {
  card_key : string;
  card_name : string;
  card_price : Q;
  card_selected : bool;
}.

(** The subscription step lists the tiers as the query returned them:
    [subscriptionTiers?.map((tier) => <Card key={tier.id} ... />)]. *)
Definition render_tiers (s : State)
    (subscriptionTiers : JsOpt (list SubscriptionTier)) : list Card :=
  match subscriptionTiers with
  | value tiers =>
      map (fun tier =>
             {| card_key := tier_id tier;
                card_name := tier_name tier;
                card_price := tier_price tier;
                card_selected :=
                  bool_decide (selectedTier (formData s) = tier_id tier) |})
          tiers
  | _ => []
  end.

(** The [queryFn] of the tier query: the rows of
    [from("subscription_tiers").select("*").order("price")] as the store
    answered, or the store's error thrown. *)
Definition subscriptionTiers_queryFn
    (data : list SubscriptionTier) (error : option string)
  : string + list SubscriptionTier :=
  match error with
  | Some e => inl e
  | None => inr data
  end.

(** [{ ...prev, [name]: value }] for the name of an input. *)
Definition with_field (n : InputName) (v : string) (prev : FormData) : FormData :=
  match n with
  | display_name_input =>
      {| email := email prev; display_name := v;
         password := password prev; confirmPassword := confirmPassword prev;
         selectedTier := selectedTier prev; avatar := avatar prev |}
  | email_input =>
      {| email := v; display_name := display_name prev;
         password := password prev; confirmPassword := confirmPassword prev;
         selectedTier := selectedTier prev; avatar := avatar prev |}
  | password_input =>
      {| email := email prev; display_name := display_name prev;
         password := v; confirmPassword := confirmPassword prev;
         selectedTier := selectedTier prev; avatar := avatar prev |}
  | confirmPassword_input =>
      {| email := email prev; display_name := display_name prev;
         password := password prev; confirmPassword := v;
         selectedTier := selectedTier prev; avatar := avatar prev |}
  end.

(** The [value] prop of the input named [n]. *)
Definition field (n : InputName) (fd : FormData) : string :=
  match n with
  | display_name_input => display_name fd
  | email_input => email fd
  | password_input => password fd
  | confirmPassword_input => confirmPassword fd
  end.

(** [handleChange]; [n] and [v] are [e.target.name] and [e.target.value]. *)
Definition handleChange (n : InputName) (v : string) : M State unit :=
  setFormData (with_field n v).

(** [["account", "subscription", "services"].indexOf(currentStep)] *)
Definition step_index (st : Step) : nat :=
  match st with
  | account => 0
  | subscription => 1
  | services => 2
  end.

(** The step indicator: one bar per step, lit when
    [index <= indexOf(currentStep)]. *)
Definition step_indicator (s : State) : list bool :=
  map (fun index => (index <=? step_index (currentStep s))%nat) [0; 1; 2]%nat.

(** The "Sign in" button of the account step. *)
Definition handleSignIn : M State unit := navigate "/login".

(** [onClick] of a service card; [disabled] is the card's [service.disabled]
    (set for Tidal only). *)
Definition handleServiceCardClick (disabled : bool) : M State unit :=
  if negb disabled then
    sessionStorage_setItem "auth_callback_url" "/register?step=services"
  else mret tt.

(** The query the page sends for the tiers:
    [supabase.from("subscription_tiers").select("*").order("price")]. *)
Definition subscriptionTiers_query : Query :=
  {| query_from := "subscription_tiers";
     query_select := "*";
     query_order := Some "price" |}.

(** The [data] of the tier query: what [queryFn] returned, [undefined] when
    it threw. *)
Definition subscriptionTiers_data (answer : string + list SubscriptionTier)
  : JsOpt (list SubscriptionTier) :=
  match answer with
  | inr tiers => value tiers
  | inl _ => undefined
  end.

End Register.

(** ** The [ProfileCreation] form *)

Module ProfileCreation.

Record ProfileFormData : Type := {
  email : string;
  display_name : string;
  password : string;
  confirmPassword : string;
  avatar : option File;
}.

Record State : Type := {
  formData : ProfileFormData;
  previewUrl : option ObjectURL;
  isDragging : bool;
}.

Definition initial_state : State :=
  {| formData := {| email := ""; display_name := ""; password := "";
                    confirmPassword := ""; avatar := None |};
     previewUrl := None;
     isDragging := false |}.

Definition setFormData (f : ProfileFormData -> ProfileFormData) : M State unit :=
  modify_comp (fun s =>
    {| formData := f (formData s); previewUrl := previewUrl s;
       isDragging := isDragging s |}).

Definition setPreviewUrl (u : option ObjectURL) : M State unit :=
  modify_comp (fun s =>
    {| formData := formData s; previewUrl := u; isDragging := isDragging s |}).

Definition setIsDragging (b : bool) : M State unit :=
  modify_comp (fun s =>
    {| formData := formData s; previewUrl := previewUrl s; isDragging := b |}).

(** [{ ...prev, avatar: a }] *)
Definition with_avatar (a : option File) (prev : ProfileFormData) : ProfileFormData :=
  {| email := email prev; display_name := display_name prev;
     password := password prev; confirmPassword := confirmPassword prev;
     avatar := a |}.

(** [handleFileUpload] *)
Definition handleFileUpload (file : File) : M State unit :=
  if too_large file then
    toast_error "Avatar image must be less than 2MB"
  else
    url ← createObjectURL file;
    setPreviewUrl (Some url) ;;
    setFormData (with_avatar (Some file)).

(** [handleFileChange]; [files0] is [e.target.files?.[0]]. *)
Definition handleFileChange (files0 : option File) : M State unit :=
  match files0 with
  | Some file => handleFileUpload file
  | None => mret tt
  end.

Definition handleDragOver : M State unit := setIsDragging true.
Definition handleDragLeave : M State unit := setIsDragging false.

(** [handleDrop]; [files0] is [e.dataTransfer.files[0]]. The callback is
    memoised once, and the [handleFileUpload] it captured reads no state. *)
Definition handleDrop (files0 : option File) : M State unit :=
  setIsDragging false ;;
  match files0 with
  | Some file =>
      if is_image file then handleFileUpload file
      else toast_error "Please upload an image file"
  | None => toast_error "Please upload an image file"
  end.

(** [removeAvatar] *)
Definition removeAvatar : M State unit :=
  s ← get_comp;
  setFormData (with_avatar None) ;;
  match previewUrl s with
  | Some u => revokeObjectURL u ;; setPreviewUrl None
  | None => mret tt
  end.

(** Unmounting the form: the component registers no cleanup. *)
Definition unmount : M State unit := mret tt.

(** The [onSubmit] prop, recorded in the trace. *)
Definition onSubmit (fd : ProfileFormData) : M State unit :=
  emit (EOnSubmit (email fd) (display_name fd) (password fd)
                  (confirmPassword fd) (avatar fd)).

(** [handleSubmit] *)
Definition handleSubmit : M State unit :=
  s ← get_comp;
  let fd := formData s in
  if decide (password fd <> confirmPassword fd) then
    toast_error "Passwords do not match"
  else
    onSubmit fd.

(** [{ ...prev, [name]: value }] for the name of an input. *)
Definition with_field (n : InputName) (v : string) (prev : ProfileFormData)
  : ProfileFormData :=
  match n with
  | display_name_input =>
      {| email := email prev; display_name := v; password := password prev;
         confirmPassword := confirmPassword prev; avatar := avatar prev |}
  | email_input =>
      {| email := v; display_name := display_name prev; password := password prev;
         confirmPassword := confirmPassword prev; avatar := avatar prev |}
  | password_input =>
      {| email := email prev; display_name := display_name prev; password := v;
         confirmPassword := confirmPassword prev; avatar := avatar prev |}
  | confirmPassword_input =>
      {| email := email prev; display_name := display_name prev;
         password := password prev; confirmPassword := v; avatar := avatar prev |}
  end.

(** [formData[field.name]], the [value] prop of the input named [n]. *)
Definition field (n : InputName) (fd : ProfileFormData) : string :=
  match n with
  | display_name_input => display_name fd
  | email_input => email fd
  | password_input => password fd
  | confirmPassword_input => confirmPassword fd
  end.

(** [handleChange]; [n] and [v] are [e.target.name] and [e.target.value]. *)
Definition handleChange (n : InputName) (v : string) : M State unit :=
  setFormData (with_field n v).

End ProfileCreation.

(** ** The [PlaylistCard] component *)

Module PlaylistCard.

(** The fields of [NormalizedPlaylist] the card reads; [artwork_url] is
    [playlist.artwork?.url], [undefined] when there is no artwork. *)
Record NormalizedPlaylist : Type := {
  playlist_id : string;
  name : string;
  service : string;
  artwork_url : option string;
  tracks_count : Z;
}.

Record Props : Type := {
  playlist : option NormalizedPlaylist;    (* falsy: the card renders nothing *)
  isSelectionMode : option bool;
  onSelect : bool;                         (* whether the prop is passed *)
}.

(** What a handler of the card asks of its surroundings. *)
Inductive Effect : Type :=
  | OnSelect (p : NormalizedPlaylist)
  | OnTransfer (p : NormalizedPlaylist)
  | Navigate (to service : string) (previousParams : gmap string string)
  | PrefetchPlaylist (p : NormalizedPlaylist) (userId : string).

(** [Object.fromEntries(searchParams.entries())]: the pairs are written into
    the object in order, a later pair overwriting an earlier one of the same
    name. *)
Definition fromEntries (ps : SearchParams) : gmap string string :=
  fold_left (fun obj p => <[p.1 := p.2]> obj) ps ∅.

(** [handleClick] *)
Definition handleClick (props : Props) (p : NormalizedPlaylist)
    (searchParams : SearchParams) : list Effect :=
  if truthy_bool (isSelectionMode props) && onSelect props then
    [OnSelect p]
  else
    let currentParams := fromEntries searchParams in
    [Navigate ("/playlist/" ++ playlist_id p) (service p) currentParams].

(** [handleMouseEnter] *)
Definition handleMouseEnter (props : Props) (p : NormalizedPlaylist)
    (u : option User) : list Effect :=
  match u with
  | Some usr =>
      if negb (truthy_bool (isSelectionMode props))
      then [PrefetchPlaylist p (user_id usr)]
      else []
  | None => []
  end.

(** [playlist.artwork?.url || ''] *)
Definition artworkUrl (p : NormalizedPlaylist) : string :=
  match artwork_url p with
  | Some u => if truthy_str u then u else ""
  | None => ""
  end.

(** The transfer button, rendered only outside selection mode; its click
    stops propagation, so the card's [handleClick] does not run. *)
Definition handleTransferClick (props : Props) (p : NormalizedPlaylist) : list Effect :=
  if negb (truthy_bool (isSelectionMode props)) then [OnTransfer p] else [].

(** A click on the card as rendered: nothing when [playlist] is falsy. *)
Definition click (props : Props) (searchParams : SearchParams) : list Effect :=
  match playlist props with
  | Some p => handleClick props p searchParams
  | None => []
  end.

End PlaylistCard.

(** * Specification vocabulary and sample inputs *)

(** [connectedServices] holds no service: it is [undefined], [null] or the
    empty array. *)
Definition no_connected_services {A} (cs : JsOpt (list A)) : Prop :=
  match cs with
  | value (_ :: _) => False
  | _ => True
  end.

Definition spotify_syncing : SyncStatus :=
  {| service := "spotify"; last_library_sync := null |}.

Definition spotify_synced : SyncStatus :=
  {| service := "spotify"; last_library_sync := value "2025-02-05T22:55:30Z" |}.

Definition view_of (cs : JsOpt (list string)) (ss : JsOpt (list SyncStatus))
  : ServicesView string :=
  {| user := Some {| user_id := "u1" |}; connectedServices := cs; syncStatuses := ss |}.

(** [v] with other sync statuses. *)
Definition with_syncStatuses {A} (ss : JsOpt (list SyncStatus)) (v : ServicesView A)
  : ServicesView A :=
  {| user := user v; connectedServices := connectedServices v; syncStatuses := ss |}.

(** The [step] parameter of the location names the current step. *)
Definition url_in_sync (w : World Register.State) : Prop :=
  usp_get "step" (location_search (env w))
  = Some (step_name (Register.currentStep (comp w))).

Definition env_at (path : string) (ps : SearchParams) (ss : gmap string string) : Env :=
  {| location_pathname := path;
     location_search := ps;
     sessionStorage := ss;
     object_urls := ∅;
     object_url_counter := 0;
     trace := [] |}.

Definition deep_link_services : Env :=
  env_at "/register" [("step", "services")] {[ "register_step" := "subscription" ]}.

(** The events a handler added to the trace. *)
Definition emitted {C A} (m : M C A) (w : World C) (evs : list Event) : Prop :=
  trace (env (exec m w)) = (trace (env w) ++ evs)%list.

Definition avatar_png : File :=
  {| file_name := "me.png"; file_type := "image/png"; file_size := 120000 |}.

Definition register_form (pw confirm : string) (a : option File) : Register.FormData :=
  {| Register.email := "ada@example.org";
     Register.display_name := "Ada";
     Register.password := pw;
     Register.confirmPassword := confirm;
     Register.selectedTier := "";
     Register.avatar := a |}.

Definition register_world (fd : Register.FormData) : World Register.State :=
  {| comp := {| Register.loading := false;
                Register.currentStep := account;
                Register.formData := fd;
                Register.previewUrl := None;
                Register.isDragging := false |};
     env := env_at "/register" [("step", "account")] ∅ |}.

Definition profile_world (pw confirm : string) : World ProfileCreation.State :=
  {| comp := {| ProfileCreation.formData :=
                  {| ProfileCreation.email := "ada@example.org";
                     ProfileCreation.display_name := "Ada";
                     ProfileCreation.password := pw;
                     ProfileCreation.confirmPassword := confirm;
                     ProfileCreation.avatar := None |};
                ProfileCreation.previewUrl := None;
                ProfileCreation.isDragging := false |};
     env := env_at "/register" [] ∅ |}.

(** A backend on which every call succeeds. *)
Definition backend_ok : Backend :=
  {| register_answer := fun _ _ _ => None;
     getUser_answer := Some {| user_id := "u1" |};
     uploadFile_answer := fun _ path _ => inr ("https://cdn.example.org/" ++ path);
     update_answer := fun _ _ => None;
     random_token := "0.42" |}.

(** A handler turned the file down: one error toast, and the pending avatar,
    its preview and the set of object URLs are as before. *)
Definition rejects_in_Register (m : M Register.State unit) (w : World Register.State)
    (msg : string) : Prop :=
  emitted m w [EToastError msg] /\
  Register.formData (comp (exec m w)) = Register.formData (comp w) /\
  Register.previewUrl (comp (exec m w)) = Register.previewUrl (comp w) /\
  object_urls (env (exec m w)) = object_urls (env w).

Definition rejects_in_ProfileCreation (m : M ProfileCreation.State unit)
    (w : World ProfileCreation.State) (msg : string) : Prop :=
  emitted m w [EToastError msg] /\
  ProfileCreation.formData (comp (exec m w)) = ProfileCreation.formData (comp w) /\
  ProfileCreation.previewUrl (comp (exec m w)) = ProfileCreation.previewUrl (comp w) /\
  object_urls (env (exec m w)) = object_urls (env w).

(** A handler took the file: no toast, the file is the pending avatar and a
    freshly created object URL is its preview. *)
Definition accepts_in_Register (m : M Register.State unit) (w : World Register.State)
    (file : File) : Prop :=
  emitted m w [] /\
  Register.avatar (Register.formData (comp (exec m w))) = Some file /\
  Register.previewUrl (comp (exec m w)) = Some (object_url_counter (env w)) /\
  object_urls (env (exec m w)) = {[object_url_counter (env w)]} ∪ object_urls (env w).

Definition accepts_in_ProfileCreation (m : M ProfileCreation.State unit)
    (w : World ProfileCreation.State) (file : File) : Prop :=
  emitted m w [] /\
  ProfileCreation.avatar (ProfileCreation.formData (comp (exec m w))) = Some file /\
  ProfileCreation.previewUrl (comp (exec m w)) = Some (object_url_counter (env w)) /\
  object_urls (env (exec m w)) = {[object_url_counter (env w)]} ∪ object_urls (env w).

Definition avatar_3MB : File :=
  {| file_name := "big.png"; file_type := "image/png"; file_size := 3000000 |}.

Definition avatar_2MiB : File :=
  {| file_name := "edge.png"; file_type := "image/png"; file_size := 2097152 |}.

Definition resume_pdf : File :=
  {| file_name := "resume.pdf"; file_type := "application/pdf"; file_size := 52000 |}.

(** Object URLs that are still allocated although no preview shows them. *)
Definition leaked_in_Register (w : World Register.State) : gset ObjectURL :=
  match Register.previewUrl (comp w) with
  | Some u => object_urls (env w) ∖ {[u]}
  | None => object_urls (env w)
  end.

Definition avatar_jpg : File :=
  {| file_name := "other.jpg"; file_type := "image/jpeg"; file_size := 90000 |}.

(** What [handleRegister] does for the avatar once [newUser] is known. *)
Definition avatar_events (B : Backend) (fd : Register.FormData) (newUser : option User) : list Event :=
  match newUser, Register.avatar fd with
  | Some u, Some file =>
      let fileName :=
        user_id u ++ "/" ++ random_token B ++ "." ++ split_pop (file_name file) in
      EUploadFile "avatars" fileName file ::
      match uploadFile_answer B "avatars" fileName file with
      | inl _ => [EConsoleError "Error uploading avatar:"]
      | inr url =>
          if truthy_str url then
            EUpdateAvatarUrl (user_id u) url ::
            match update_answer B (user_id u) url with
            | Some _ => [EConsoleError "Error updating profile with avatar:"]
            | None => []
            end
          else []
      end
  | _, _ => []
  end.

Definition is_register_or_toast (ev : Event) : bool :=
  match ev with
  | ERegister _ _ _ | EToastError _ => true
  | _ => false
  end.

(** Backends on which registration is rejected, the upload fails, or the
  profile update fails. *)
Definition backend_register_rejected : Backend :=
  {| register_answer := fun _ _ _ => Some (Some "User already registered");
     getUser_answer := None;
     uploadFile_answer := fun _ path _ => inr ("https://cdn.example.org/" ++ path);
     update_answer := fun _ _ => None;
     random_token := "0.42" |}.

(** A backend on which [register] rejects with [null]. *)
Definition backend_register_rejects_null : Backend :=
  {| register_answer := fun _ _ _ => Some None;
     getUser_answer := None;
     uploadFile_answer := fun _ path _ => inr ("https://cdn.example.org/" ++ path);
     update_answer := fun _ _ => None;
     random_token := "0.42" |}.

Definition backend_upload_fails : Backend :=
  {| register_answer := fun _ _ _ => None;
     getUser_answer := Some {| user_id := "u1" |};
     uploadFile_answer := fun _ _ _ => inl "Payload too large";
     update_answer := fun _ _ => None;
     random_token := "0.42" |}.

Definition backend_update_fails : Backend :=
  {| register_answer := fun _ _ _ => None;
     getUser_answer := Some {| user_id := "u1" |};
     uploadFile_answer := fun _ path _ => inr ("https://cdn.example.org/" ++ path);
     update_answer := fun _ _ => Some "permission denied";
     random_token := "0.42" |}.

Definition with_avatar_world : World Register.State :=
  register_world (register_form "secret1" "secret1" (Some avatar_png)).

(** Insertion of a tier before the first row that is not cheaper. *)
Fixpoint insert_by_price (t : SubscriptionTier) (l : list SubscriptionTier)
  : list SubscriptionTier :=
  match l with
  | [] => [t]
  | x :: rest =>
      if Qle_bool (tier_price t) (tier_price x) then t :: l
      else x :: insert_by_price t rest
  end.

Definition sort_by_price (l : list SubscriptionTier) : list SubscriptionTier :=
  foldr insert_by_price [] l.

(** Modelled from the spec: the relational store is a collaborator outside
    the repository, whose tier query the spec describes as a "read-only
    query returning subscription tiers sorted by price ascending". [table]
    holds the rows of [subscription_tiers] in any order; a query ordered by
    [price] is answered with the rows in ascending price order, one without
    order with the rows as they are held. *)
Definition store_select (table : list SubscriptionTier) (q : Query)
  : list SubscriptionTier :=
  if decide (query_from q = "subscription_tiers") then
    if decide (query_order q = Some "price") then sort_by_price table else table
  else [].

(** Prices in ascending order. *)
Fixpoint ascending (prices : list Q) : bool :=
  match prices with
  | a :: (b :: _) as rest => Qle_bool a b && ascending rest
  | _ => true
  end.

Definition tier_a : SubscriptionTier :=
  {| tier_id := "a"; tier_name := "Free"; tier_tier := "free"; tier_price := 0 |}.

Definition tier_b : SubscriptionTier :=
  {| tier_id := "b"; tier_name := "Pro"; tier_tier := "pro"; tier_price := 9.99 |}.

Definition subscription_state : Register.State :=
  {| Register.loading := false;
     Register.currentStep := subscription;
     Register.formData := register_form "secret1" "secret1" None;
     Register.previewUrl := None;
     Register.isDragging := false |}.

(** ** The wizard as a whole *)

(** What the user can do on the page while it stays mounted. *)
Inductive Action : Type :=
  | TypeInto (n : InputName) (v : string)
  | DragOver
  | DragLeave
  | Drop (files0 : option File)
  | PickFile (files0 : option File)
  | RemoveAvatar
  | Submit
  | SelectTier (tierId : string)
  | Continue
  | ServiceCard (disabled : bool)
  | Back.

Definition has_preview (s : Register.State) : bool :=
  match Register.previewUrl s with
  | Some _ => true
  | None => false
  end.

(** Whether the element behind an action is rendered, and enabled, in state
    [s]: the account form with its drop zone, the file input in place of the
    preview and the remove button on the preview, the submit button unless
    [loading]; the tier cards and the continue button on the subscription
    step; the service cards on the services step; the back arrow unless the
    step is [account]. *)
Definition available (tiers : JsOpt (list SubscriptionTier)) (s : Register.State)
    (a : Action) : bool :=
  match a with
  | TypeInto _ _ | DragOver | DragLeave | Drop _ =>
      bool_decide (Register.currentStep s = account)
  | PickFile _ =>
      bool_decide (Register.currentStep s = account) && negb (has_preview s)
  | RemoveAvatar =>
      bool_decide (Register.currentStep s = account) && has_preview s
  | Submit =>
      bool_decide (Register.currentStep s = account) && negb (Register.loading s)
  | SelectTier tierId =>
      bool_decide (Register.currentStep s = subscription)
      && bool_decide (tierId ∈ map Register.card_key (Register.render_tiers s tiers))
  | Continue =>
      bool_decide (Register.currentStep s = subscription)
      && negb (Register.continue_disabled s)
  | ServiceCard _ =>
      bool_decide (Register.currentStep s = services)
  | Back =>
      negb (bool_decide (Register.currentStep s = account))
  end.

(** The handler behind an action. *)
Definition perform (B : Backend) (a : Action) : M Register.State unit :=
  match a with
  | TypeInto n v => Register.handleChange n v
  | DragOver => Register.handleDragOver
  | DragLeave => Register.handleDragLeave
  | Drop files0 => Register.handleDrop files0
  | PickFile files0 => Register.handleFileChange files0
  | RemoveAvatar => Register.removeAvatar
  | Submit => Register.handleRegister B
  | SelectTier tierId => Register.handleSelectTier tierId
  | Continue => Register.handleContinue
  | ServiceCard disabled => Register.handleServiceCardClick disabled
  | Back => Register.handleBack
  end.

(** An action on the page: its handler and the render that follows when the
    element is there, nothing otherwise. *)
Definition act (B : Backend) (tiers : JsOpt (list SubscriptionTier)) (a : Action)
  : M Register.State unit :=
  fun w =>
    if available tiers (comp w) a then Register.dispatch (perform B a) w
    else (inr tt, w).

(** A session: actions one after the other, each taken once the handler of
    the one before has settled. *)
Fixpoint run (B : Backend) (tiers : JsOpt (list SubscriptionTier))
    (actions : list Action) (w : World Register.State) : World Register.State :=
  match actions with
  | [] => w
  | a :: rest => run B tiers rest (exec (act B tiers a) w)
  end.

(** Two steps are the same or next to each other in the order of the
    wizard. *)
Definition same_or_adjacent (a b : Step) : Prop :=
  (Register.step_index a <= S (Register.step_index b))%nat /\
  (Register.step_index b <= S (Register.step_index a))%nat.

(** On the services step a tier is selected. *)
Definition tier_chosen_at_services (w : World Register.State) : Prop :=
  Register.currentStep (comp w) = services ->
  truthy_str (Register.selectedTier (Register.formData (comp w))) = true.

(** Past the account step, a register call that resolved is on the trace. *)
Definition registered_beyond_account (B : Backend) (w : World Register.State) : Prop :=
  Register.currentStep (comp w) <> account ->
  exists e p d, ERegister e p d ∈ trace (env w) /\ register_answer B e p d = None.

(** A preview is shown exactly when an avatar is pending. *)
Definition preview_matches_avatar (s : Register.State) : Prop :=
  is_Some (Register.previewUrl s) <-> is_Some (Register.avatar (Register.formData s)).

Definition preview_matches_avatar_in_ProfileCreation (s : ProfileCreation.State) : Prop :=
  is_Some (ProfileCreation.previewUrl s)
  <-> is_Some (ProfileCreation.avatar (ProfileCreation.formData s)).

(** The object URLs in use were all handed out before the next one. *)
Definition urls_fresh (e : Env) : Prop :=
  forall u, u ∈ object_urls e -> (u < object_url_counter e)%nat.

(** The part of [s] before the first ['/']. *)
Fixpoint first_segment (s : string) : string :=
  match s with
  | EmptyString => EmptyString
  | String c rest =>
      if Ascii.eqb c "/"%char then EmptyString else String c (first_segment rest)
  end.

(** [c] does not occur in [s]. *)
Fixpoint free_of (c : ascii) (s : string) : bool :=
  match s with
  | EmptyString => true
  | String c' rest => negb (Ascii.eqb c' c) && free_of c rest
  end.

(** The number of pairs named [k]. *)
Definition usp_count (k : string) (ps : SearchParams) : nat :=
  length (filter (fun p => p.1 = k) ps).

(** A fresh entry on [/register] with no query string. *)
Definition fresh_entry : World Register.State :=
  Register.mount (env_at "/register" [] ∅).

(** The four inputs filled in, in the order of the form. *)
Definition fill_account_form (d e pw confirm : string) : M Register.State unit :=
  Register.handleChange display_name_input d ;;
  Register.handleChange email_input e ;;
  Register.handleChange password_input pw ;;
  Register.handleChange confirmPassword_input confirm.

Definition fill_profile_form (d e pw confirm : string) : M ProfileCreation.State unit :=
  ProfileCreation.handleChange display_name_input d ;;
  ProfileCreation.handleChange email_input e ;;
  ProfileCreation.handleChange password_input pw ;;
  ProfileCreation.handleChange confirmPassword_input confirm.

(** A session that goes through the whole wizard. *)
Definition whole_wizard : list Action :=
  [TypeInto display_name_input "Ada";
   TypeInto email_input "ada@example.org";
   TypeInto password_input "secret1";
   TypeInto confirmPassword_input "secret1";
   Drop (Some avatar_png);
   Continue;
   Submit;
   Continue;
   SelectTier "b";
   Continue;
   ServiceCard false].

Definition two_tiers : JsOpt (list SubscriptionTier) := value [tier_a; tier_b].

Definition a_playlist : PlaylistCard.NormalizedPlaylist :=
  {| PlaylistCard.playlist_id := "37i9dQ";
     PlaylistCard.name := "Road trip";
     PlaylistCard.service := "spotify";
     PlaylistCard.artwork_url := None;
     PlaylistCard.tracks_count := 42 |}.

Definition browsing : PlaylistCard.Props :=
  {| PlaylistCard.playlist := Some a_playlist;
     PlaylistCard.isSelectionMode := None;
     PlaylistCard.onSelect := false |}.

Definition selecting : PlaylistCard.Props :=
  {| PlaylistCard.playlist := Some a_playlist;
     PlaylistCard.isSelectionMode := Some true;
     PlaylistCard.onSelect := true |}.

(** The preview on screen is an object URL that has not been revoked. *)
Definition preview_is_live (w : World Register.State) : Prop :=
  forall u, Register.previewUrl (comp w) = Some u -> u ∈ object_urls (env w).

Definition avatar_state_ok (w : World Register.State) : Prop :=
  preview_matches_avatar (comp w) /\ urls_fresh (env w) /\ preview_is_live w.

Definition tracked_link : World Register.State :=
  {| comp := subscription_state;
     env := env_at "/register"
              [("ref", "mail"); ("step", "account"); ("step", "services")] ∅ |}.

Definition card_b : Register.Card :=
  {| Register.card_key := "b"; Register.card_name := "Pro";
     Register.card_price := 9.99; Register.card_selected := true |}.

(** * Properties *)

(** ** Terminal action and polling *)

Lemma truthy_length_nonempty {A} (cs : JsOpt (list A)) :
  truthy_num (opt_length cs) = false <-> no_connected_services cs.
Proof.
  destruct cs as [| |[|c l]]; simpl; try tauto.
  split; [|tauto]. intros H. exfalso.
  destruct (Z.eqb_spec (Z.pos (Pos.of_succ_nat (length l))) 0); [lia|discriminate].
Qed.

Lemma truthy_length_cons {A} (c : A) (l : list A) :
  truthy_num (opt_length (value (c :: l))) = true.
Proof.
  destruct (truthy_num (opt_length (value (c :: l)))) eqn:E; [done|].
  apply truthy_length_nonempty in E. destruct E.
Qed.

Lemma isAnySyncing_true (ss : JsOpt (list SyncStatus)) :
  isAnySyncing ss = Some true <->
  exists rows status,
    ss = value rows /\ status ∈ rows /\ last_library_sync status = null.
Proof.
  split.
  - destruct ss as [| |rows]; simpl; try discriminate.
    intros [= H]. apply existsb_exists in H as (status & Hin & Hnull).
    exists rows, status. split; [done|]. split; [by apply list_elem_of_In|].
    by destruct (last_library_sync status).
  - intros (rows & status & -> & Hin & Hnull). simpl. f_equal.
    apply existsb_exists. exists status. split; [by apply list_elem_of_In|].
    by rewrite Hnull.
Qed.

(** The terminal action is disabled exactly when no service is connected or a
    fetched row has a [null] timestamp. *)
Lemma finish_disabled_iff {A} (v : ServicesView A) :
  finish_disabled v = true <->
  no_connected_services (connectedServices v) \/
  exists rows status,
    syncStatuses v = value rows /\ status ∈ rows /\ last_library_sync status = null.
Proof.
  unfold finish_disabled, finish_disabled_prop.
  destruct (truthy_num (opt_length (connectedServices v))) eqn:E; simpl.
  - rewrite <- isAnySyncing_true. split.
    + destruct (isAnySyncing (syncStatuses v)) as [[|]|]; simpl; try discriminate.
      by right.
    + intros [Hno | ->]; [|done].
      apply truthy_length_nonempty in Hno. congruence.
  - split; [|done]. intros _. left. by apply truthy_length_nonempty.
Qed.

(** The gate of the terminal action by cases: closed when no service is
    connected, closed when a fetched row has a [null] timestamp, open when a
    service is connected and no fetched row has one. *)
Lemma finish_gate_cases {A} (v : ServicesView A) :
  (no_connected_services (connectedServices v) -> finish_disabled v = true) /\
  (forall rows status,
      syncStatuses v = value rows -> status ∈ rows ->
      last_library_sync status = null ->
      finish_disabled v = true) /\
  (forall c cs,
      connectedServices v = value (c :: cs) ->
      (forall rows status,
          syncStatuses v = value rows -> status ∈ rows ->
          last_library_sync status <> null) ->
      finish_disabled v = false).
Proof.
  split; [|split].
  - intros H. apply finish_disabled_iff. by left.
  - intros rows status Hss Hin Hnull. apply finish_disabled_iff. right.
    by exists rows, status.
  - intros c cs Hcs Hall.
    destruct (finish_disabled v) eqn:E; [|done].
    apply finish_disabled_iff in E as [Hno|(rows & status & Hss & Hin & Hnull)].
    + rewrite Hcs in Hno. destruct Hno.
    + by destruct (Hall rows status Hss Hin).
Qed.

(** C1, the failing input evaluated: with a service connected and the
    sync-status query not answered yet ([syncStatuses] is [undefined]; or
    [null], after a query that found no data), [isAnySyncing] is [undefined]
    and the terminal action is enabled and reads "Go to App", although no
    sync timestamp of the connected service is known yet. Once the row is
    fetched, its [null] timestamp disables the action; and with no service
    connected the action is disabled. *)
Theorem C1_unfetched_status_leaves_finish_enabled :
  isAnySyncing undefined = None /\
  (forall A (c : A) (cs : list A) (u : option User),
     finish_disabled
       {| user := u; connectedServices := value (c :: cs); syncStatuses := undefined |}
     = false /\
     finish_disabled
       {| user := u; connectedServices := value (c :: cs); syncStatuses := null |}
     = false) /\
  finish_label (view_of (value ["spotify"]) undefined) = "Go to App" /\
  finish_disabled (view_of (value ["spotify"]) (value [spotify_syncing])) = true /\
  finish_disabled (view_of (value []) undefined) = true.
Proof.
  split; [done|]. split; [|by repeat split].
  intros A c cs u.
  unfold finish_disabled, finish_disabled_prop. simpl. by split.
Qed.

Lemma polling_interval_spec {A} (v : ServicesView A) :
  polling_interval (syncStatuses_options v) =
  if has_user_id (user v) && truthy_num (opt_length (connectedServices v))
  then Some 2000 else None.
Proof.
  unfold polling_interval, syncStatuses_options. simpl.
  by destruct (has_user_id (user v)), (truthy_num (opt_length (connectedServices v))).
Qed.

Lemma polling_run_all_on {A} (renders : list (ServicesView A)) :
  Forall (fun v => has_user_id (user v) = true /\
                   exists c cs, connectedServices v = value (c :: cs)) renders ->
  Forall (fun period => period = Some 2000) (polling_run renders).
Proof.
  unfold polling_run. induction 1 as [|v rest [Hu (c & cs & Hcs)] _ IH]; simpl.
  - constructor.
  - constructor; [|exact IH].
    rewrite polling_interval_spec, Hu, Hcs, truthy_length_cons. reflexivity.
Qed.

(** C2, as amended: while the wizard is mounted with a signed-in user, the
    connection-status rows are polled at a fixed 2-second interval for as long
    as the list of connected services is non-empty, whatever the sync
    timestamps are; there is no polling while the list is empty or not
    loaded, and polling starts again when a service connects. *)
Theorem C2_polling_follows_connections {A} (v : ServicesView A) :
  (forall c cs,
      has_user_id (user v) = true ->
      connectedServices v = value (c :: cs) ->
      polling_interval (syncStatuses_options v) = Some 2000) /\
  (no_connected_services (connectedServices v) ->
      polling_interval (syncStatuses_options v) = None) /\
  (forall ss,
      polling_interval (syncStatuses_options (with_syncStatuses ss v)) =
      polling_interval (syncStatuses_options v)) /\
  (forall renders : list (ServicesView A),
      Forall (fun r => has_user_id (user r) = true /\
                       exists c cs, connectedServices r = value (c :: cs)) renders ->
      Forall (fun period => period = Some 2000) (polling_run renders)).
Proof.
  split; [|split; [|split]].
  - intros c cs Hu Hcs.
    rewrite polling_interval_spec, Hu, Hcs, truthy_length_cons. reflexivity.
  - intros Hno. apply truthy_length_nonempty in Hno.
    rewrite polling_interval_spec, Hno. by destruct (has_user_id (user v)).
  - intros ss. by rewrite !polling_interval_spec.
  - apply polling_run_all_on.
Qed.

Lemma C2_polling_follows_connections_witness :
  polling_interval
    (syncStatuses_options (view_of (value ["spotify"]) (value [spotify_synced])))
    = Some 2000 /\
  polling_interval (syncStatuses_options (view_of (value []) (value []))) = None /\
  polling_run [view_of (value ["spotify"]) (value [spotify_syncing]);
               view_of (value ["spotify"]) (value [spotify_synced]);
               view_of (value ["spotify"]) (value [spotify_synced])]
    = [Some 2000; Some 2000; Some 2000].
Proof.
  split; [|split].
  - apply (proj1 (C2_polling_follows_connections
             (view_of (value ["spotify"]) (value [spotify_synced])))
             "spotify" []); reflexivity.
  - apply (proj1 (proj2 (C2_polling_follows_connections
             (view_of (value []) (value []))))). exact I.
  - reflexivity.
Defined.

(** C2, as stated, fails: with the only connected service synced (no null
    timestamp left) the 2-second interval is still in force, on this render
    and on every later one like it. *)
Lemma C2_polling_continues_after_sync :
  existsb (fun status => is_null (last_library_sync status)) [spotify_synced] = false /\
  polling_interval
    (syncStatuses_options (view_of (value ["spotify"]) (value [spotify_synced])))
    = Some 2000 /\
  polling_run [view_of (value ["spotify"]) (value [spotify_synced]);
               view_of (value ["spotify"]) (value [spotify_synced])]
    = [Some 2000; Some 2000].
Proof. repeat split. Qed.

(** ** The step and the navigable location *)

Lemma usp_get_set_eq (k v : string) (ps : SearchParams) :
  usp_get k (usp_set k v ps) = Some v.
Proof.
  induction ps as [|[k' v'] rest IH]; simpl.
  - by rewrite decide_True.
  - destruct (decide (k' = k)) as [->|Hne]; simpl.
    + by rewrite decide_True.
    + by rewrite decide_False.
Qed.

Lemma usp_get_delete_ne (k k' : string) (ps : SearchParams) :
  k <> k' -> usp_get k' (usp_delete k ps) = usp_get k' ps.
Proof.
  intros Hne. unfold usp_delete.
  induction ps as [|[k0 v0] rest IH]; [done|].
  rewrite filter_cons. simpl. destruct (decide (k0 <> k)) as [H0|H0]; simpl.
  - by rewrite IH.
  - apply dec_stable in H0. subst k0. by rewrite decide_False.
Qed.

Lemma usp_get_set_ne (k k' v : string) (ps : SearchParams) :
  k <> k' -> usp_get k' (usp_set k v ps) = usp_get k' ps.
Proof.
  intros Hne. induction ps as [|[k0 v0] rest IH]; simpl.
  - by rewrite decide_False.
  - destruct (decide (k0 = k)) as [->|H0]; simpl.
    + rewrite !decide_False by done. by apply usp_get_delete_ne.
    + by rewrite IH.
Qed.

Lemma step_of_name_name (s : Step) : Register.step_of_name (step_name s) = Some s.
Proof. by destruct s. Qed.

Lemma initial_step_of_url (s : Step) (ps : SearchParams) :
  usp_get "step" ps = Some (step_name s) -> Register.initial_step ps = s.
Proof.
  intros H. unfold Register.initial_step. by rewrite H, step_of_name_name.
Qed.

Lemma effect_sync_url_in_sync (w : World Register.State) :
  url_in_sync (exec Register.effect_sync_url w) /\
  comp (exec Register.effect_sync_url w) = comp w /\
  Register.effect_sync_url w = (inr tt, exec Register.effect_sync_url w).
Proof.
  unfold url_in_sync, exec, Register.effect_sync_url. simpl.
  split; [apply usp_get_set_eq|done].
Qed.

Lemma dispatch_in_sync {A} (h : M Register.State A) (w : World Register.State) :
  url_in_sync (exec (Register.dispatch h) w).
Proof.
  unfold exec, Register.dispatch, try_finally.
  destruct ((h ;; mret tt) w) as [r w'] eqn:E.
  destruct (effect_sync_url_in_sync w') as (Hs & _ & Hr).
  rewrite Hr. simpl. destruct r; exact Hs.
Qed.

Lemma mount_spec (e : Env) :
  comp (Register.mount e) = Register.initial_state (location_search e) /\
  location_search (env (Register.mount e))
    = usp_set "step" (step_name (Register.initial_step (location_search e)))
              (location_search e) /\
  sessionStorage (env (Register.mount e)) = delete "register_step" (sessionStorage e) /\
  trace (env (Register.mount e)) = trace e /\
  object_urls (env (Register.mount e)) = object_urls e.
Proof. done. Qed.

(** C3: the step is encoded in the [step] query parameter. On entry and
    after every handler the parameter names the current step, and setting
    the step to [st] sets the parameter to [st]; a page opened on a location
    whose parameter names a step (a reload or deep link with [step=services]
    among them) starts on that step with an empty form and without any
    collaborator call or toast; and entry removes the [register_step] marker
    from session storage. *)
Theorem C3_step_in_location (e : Env) :
  url_in_sync (Register.mount e) /\
  (forall A (h : M Register.State A) (w : World Register.State),
      url_in_sync (exec (Register.dispatch h) w)) /\
  (forall (st : Step) (w : World Register.State),
      Register.currentStep (comp (exec (Register.dispatch (Register.setCurrentStep st)) w)) = st /\
      usp_get "step"
        (location_search (env (exec (Register.dispatch (Register.setCurrentStep st)) w)))
      = Some (step_name st)) /\
  (forall s : Step,
      usp_get "step" (location_search e) = Some (step_name s) ->
      Register.currentStep (comp (Register.mount e)) = s /\
      Register.formData (comp (Register.mount e)) = Register.initial_formData /\
      trace (env (Register.mount e)) = trace e) /\
  sessionStorage (env (Register.mount e)) !! "register_step" = None.
Proof.
  destruct (mount_spec e) as (Hc & Hl & Hs & Ht & _).
  split; [|split; [|split; [|split]]].
  - unfold url_in_sync. rewrite Hl, Hc. simpl. apply usp_get_set_eq.
  - intros A h w. apply dispatch_in_sync.
  - intros st w. split; [done|].
    unfold exec, Register.dispatch, try_finally. simpl. apply usp_get_set_eq.
  - intros s H. rewrite Hc, Ht. simpl.
    split; [by apply initial_step_of_url|done].
  - rewrite Hs. apply lookup_delete_eq.
Qed.

Lemma C3_step_in_location_witness :
  Register.currentStep (comp (Register.mount deep_link_services)) = services /\
  Register.formData (comp (Register.mount deep_link_services))
    = Register.initial_formData /\
  trace (env (Register.mount deep_link_services)) = [].
Proof.
  apply (proj1 (proj2 (proj2 (proj2 (C3_step_in_location deep_link_services))))
           services).
  reflexivity.
Defined.

(** ** Submitting the account step *)

Lemma handleRegister_mismatch (B : Backend) (w : World Register.State) :
  Register.password (Register.formData (comp w))
    <> Register.confirmPassword (Register.formData (comp w)) ->
  Register.handleRegister B w =
  (inr tt,
   {| comp := {| Register.loading := false;
                 Register.currentStep := Register.currentStep (comp w);
                 Register.formData := Register.formData (comp w);
                 Register.previewUrl := Register.previewUrl (comp w);
                 Register.isDragging := Register.isDragging (comp w) |};
      env := {| location_pathname := location_pathname (env w);
                location_search := location_search (env w);
                sessionStorage := sessionStorage (env w);
                object_urls := object_urls (env w);
                object_url_counter := object_url_counter (env w);
                trace := (trace (env w) ++ [EToastError "Passwords do not match"])%list |} |}).
Proof.
  intros Hne. unfold Register.handleRegister.
  unfold mbind, M_bind, get_comp. simpl.
  unfold try_finally, try_catch. simpl.
  rewrite decide_True by exact Hne. reflexivity.
Qed.

Lemma handleSubmit_mismatch (w : World ProfileCreation.State) :
  ProfileCreation.password (ProfileCreation.formData (comp w))
    <> ProfileCreation.confirmPassword (ProfileCreation.formData (comp w)) ->
  ProfileCreation.handleSubmit w =
  (inr tt,
   {| comp := comp w;
      env := {| location_pathname := location_pathname (env w);
                location_search := location_search (env w);
                sessionStorage := sessionStorage (env w);
                object_urls := object_urls (env w);
                object_url_counter := object_url_counter (env w);
                trace := (trace (env w) ++ [EToastError "Passwords do not match"])%list |} |}).
Proof.
  intros Hne. unfold ProfileCreation.handleSubmit.
  unfold mbind, M_bind, get_comp. simpl.
  rewrite decide_True by exact Hne. reflexivity.
Qed.

(** C4: when [password] differs from [confirmPassword], submitting the account
    step makes no call to the identity provider (nor to any other
    collaborator), shows the error toast "Passwords do not match", and leaves
    the step and the form fields as they were; the same holds of the
    [ProfileCreation] form, which does not call [onSubmit]. *)
Theorem C4_password_mismatch_blocks_submit
    (B : Backend) (w : World Register.State) (p : World ProfileCreation.State) :
  (Register.password (Register.formData (comp w))
     <> Register.confirmPassword (Register.formData (comp w)) ->
   emitted (Register.handleRegister B) w [EToastError "Passwords do not match"] /\
   Register.currentStep (comp (exec (Register.handleRegister B) w))
     = Register.currentStep (comp w) /\
   Register.formData (comp (exec (Register.handleRegister B) w))
     = Register.formData (comp w) /\
   Register.previewUrl (comp (exec (Register.handleRegister B) w))
     = Register.previewUrl (comp w) /\
   Register.loading (comp (exec (Register.handleRegister B) w)) = false) /\
  (ProfileCreation.password (ProfileCreation.formData (comp p))
     <> ProfileCreation.confirmPassword (ProfileCreation.formData (comp p)) ->
   emitted ProfileCreation.handleSubmit p [EToastError "Passwords do not match"] /\
   comp (exec ProfileCreation.handleSubmit p) = comp p).
Proof.
  split; intros Hne.
  - unfold emitted, exec. rewrite (handleRegister_mismatch B w Hne). by simpl.
  - unfold emitted, exec. rewrite (handleSubmit_mismatch p Hne). by simpl.
Qed.

Lemma C4_password_mismatch_blocks_submit_witness :
  (emitted (Register.handleRegister backend_ok)
     (register_world (register_form "secret1" "secret2" None))
     [EToastError "Passwords do not match"] /\
   Register.currentStep
     (comp (exec (Register.handleRegister backend_ok)
                 (register_world (register_form "secret1" "secret2" None))))
     = account) /\
  emitted ProfileCreation.handleSubmit (profile_world "secret1" "secret2")
    [EToastError "Passwords do not match"].
Proof.
  pose proof (C4_password_mismatch_blocks_submit backend_ok
                (register_world (register_form "secret1" "secret2" None))
                (profile_world "secret1" "secret2")) as [HR HP].
  split.
  - destruct HR as (He & Hs & _); [simpl; discriminate|]. split; [exact He|exact Hs].
  - destruct HP as (He & _); [simpl; discriminate|]. exact He.
Defined.

(** ** Avatar selection *)

Lemma too_large_spec (f : File) :
  too_large f = true <-> 2 * 1024 * 1024 < file_size f.
Proof. unfold too_large. rewrite Z.gtb_ltb. apply Z.ltb_lt. Qed.

Lemma too_large_false (f : File) :
  too_large f = false <-> file_size f <= 2 * 1024 * 1024.
Proof. unfold too_large. rewrite Z.gtb_ltb. apply Z.ltb_ge. Qed.

Local Ltac run_handler :=
  unfold exec, emitted,
    Register.handleDrop, Register.handleFileChange, Register.handleFileUpload,
    ProfileCreation.handleDrop, ProfileCreation.handleFileChange,
    ProfileCreation.handleFileUpload;
  unfold mbind, M_bind; simpl.

Lemma Register_handleFileUpload_too_large (file : File) (w : World Register.State) :
  too_large file = true ->
  rejects_in_Register (Register.handleFileUpload file) w
    "Avatar image must be less than 2MB".
Proof.
  intros H. unfold rejects_in_Register. run_handler. rewrite H. by simpl.
Qed.

Lemma Register_handleFileUpload_fits (file : File) (w : World Register.State) :
  too_large file = false ->
  accepts_in_Register (Register.handleFileUpload file) w file.
Proof.
  intros H. unfold accepts_in_Register. run_handler. rewrite H. simpl.
  by rewrite app_nil_r.
Qed.

Lemma Register_handleDrop_too_large (file : File) (w : World Register.State) :
  too_large file = true ->
  exists msg, rejects_in_Register (Register.handleDrop (Some file)) w msg.
Proof.
  intros H. destruct (is_image file) eqn:Himg.
  - exists "Avatar image must be less than 2MB".
    unfold rejects_in_Register. run_handler. rewrite Himg. run_handler.
    rewrite H. by simpl.
  - exists "Please upload an image file".
    unfold rejects_in_Register. run_handler. rewrite Himg. by simpl.
Qed.

Lemma Register_handleDrop_not_image (files0 : option File) (w : World Register.State) :
  (forall file, files0 = Some file -> is_image file = false) ->
  rejects_in_Register (Register.handleDrop files0) w "Please upload an image file".
Proof.
  intros H. unfold rejects_in_Register. run_handler.
  destruct files0 as [file|]; [|by simpl].
  rewrite (H file eq_refl). by simpl.
Qed.

Lemma ProfileCreation_handleFileUpload_too_large
    (file : File) (w : World ProfileCreation.State) :
  too_large file = true ->
  rejects_in_ProfileCreation (ProfileCreation.handleFileUpload file) w
    "Avatar image must be less than 2MB".
Proof.
  intros H. unfold rejects_in_ProfileCreation. run_handler. rewrite H. by simpl.
Qed.

Lemma ProfileCreation_handleFileUpload_fits
    (file : File) (w : World ProfileCreation.State) :
  too_large file = false ->
  accepts_in_ProfileCreation (ProfileCreation.handleFileUpload file) w file.
Proof.
  intros H. unfold accepts_in_ProfileCreation. run_handler. rewrite H. simpl.
  by rewrite app_nil_r.
Qed.

Lemma ProfileCreation_handleDrop_too_large
    (file : File) (w : World ProfileCreation.State) :
  too_large file = true ->
  exists msg, rejects_in_ProfileCreation (ProfileCreation.handleDrop (Some file)) w msg.
Proof.
  intros H. destruct (is_image file) eqn:Himg.
  - exists "Avatar image must be less than 2MB".
    unfold rejects_in_ProfileCreation. run_handler. rewrite Himg. run_handler.
    rewrite H. by simpl.
  - exists "Please upload an image file".
    unfold rejects_in_ProfileCreation. run_handler. rewrite Himg. by simpl.
Qed.

Lemma ProfileCreation_handleDrop_not_image
    (files0 : option File) (w : World ProfileCreation.State) :
  (forall file, files0 = Some file -> is_image file = false) ->
  rejects_in_ProfileCreation (ProfileCreation.handleDrop files0) w
    "Please upload an image file".
Proof.
  intros H. unfold rejects_in_ProfileCreation. run_handler.
  destruct files0 as [file|]; [|by simpl].
  rewrite (H file eq_refl). by simpl.
Qed.

(** C9: an avatar file larger than 2 MiB is turned down with an error toast
    on every selection path (the upload routine itself, the file picker and
    drag-and-drop) of both components, and the pending avatar and its preview
    stay as they were. *)
Theorem C9_oversized_avatar_rejected
    (file : File) (w : World Register.State) (p : World ProfileCreation.State) :
  2 * 1024 * 1024 < file_size file ->
  (rejects_in_Register (Register.handleFileUpload file) w
     "Avatar image must be less than 2MB" /\
   rejects_in_Register (Register.handleFileChange (Some file)) w
     "Avatar image must be less than 2MB" /\
   exists msg, rejects_in_Register (Register.handleDrop (Some file)) w msg) /\
  (rejects_in_ProfileCreation (ProfileCreation.handleFileUpload file) p
     "Avatar image must be less than 2MB" /\
   rejects_in_ProfileCreation (ProfileCreation.handleFileChange (Some file)) p
     "Avatar image must be less than 2MB" /\
   exists msg, rejects_in_ProfileCreation (ProfileCreation.handleDrop (Some file)) p msg).
Proof.
  intros H%too_large_spec. split; (split; [|split]).
  - by apply Register_handleFileUpload_too_large.
  - by apply Register_handleFileUpload_too_large.
  - by apply Register_handleDrop_too_large.
  - by apply ProfileCreation_handleFileUpload_too_large.
  - by apply ProfileCreation_handleFileUpload_too_large.
  - by apply ProfileCreation_handleDrop_too_large.
Qed.

Lemma C9_oversized_avatar_rejected_witness :
  rejects_in_Register (Register.handleFileUpload avatar_3MB)
    (register_world (register_form "secret1" "secret1" None))
    "Avatar image must be less than 2MB" /\
  rejects_in_ProfileCreation (ProfileCreation.handleFileUpload avatar_3MB)
    (profile_world "secret1" "secret1")
    "Avatar image must be less than 2MB".
Proof.
  assert (Hsize : 2 * 1024 * 1024 < file_size avatar_3MB) by (simpl; lia).
  pose proof (C9_oversized_avatar_rejected avatar_3MB
                (register_world (register_form "secret1" "secret1" None))
                (profile_world "secret1" "secret1") Hsize) as [[HR _] [HP _]].
  split; [exact HR|exact HP].
Defined.

(** C10: a file of exactly 2 * 1024 * 1024 bytes passes the size check, which
    is a strict comparison: the upload routine of both components shows no
    toast, makes the file the pending avatar and creates a preview URL for
    it. *)
Theorem C10_boundary_avatar_accepted
    (file : File) (w : World Register.State) (p : World ProfileCreation.State) :
  file_size file = 2 * 1024 * 1024 ->
  too_large file = false /\
  accepts_in_Register (Register.handleFileUpload file) w file /\
  accepts_in_Register (Register.handleFileChange (Some file)) w file /\
  accepts_in_ProfileCreation (ProfileCreation.handleFileUpload file) p file /\
  accepts_in_ProfileCreation (ProfileCreation.handleFileChange (Some file)) p file.
Proof.
  intros Hsize.
  assert (H : too_large file = false) by (apply too_large_false; lia).
  split; [exact H|]. split; [|split; [|split]].
  - by apply Register_handleFileUpload_fits.
  - by apply Register_handleFileUpload_fits.
  - by apply ProfileCreation_handleFileUpload_fits.
  - by apply ProfileCreation_handleFileUpload_fits.
Qed.

Lemma C10_boundary_avatar_accepted_witness :
  accepts_in_Register (Register.handleFileUpload avatar_2MiB)
    (register_world (register_form "secret1" "secret1" None)) avatar_2MiB /\
  accepts_in_ProfileCreation (ProfileCreation.handleFileUpload avatar_2MiB)
    (profile_world "secret1" "secret1") avatar_2MiB.
Proof.
  pose proof (C10_boundary_avatar_accepted avatar_2MiB
                (register_world (register_form "secret1" "secret1" None))
                (profile_world "secret1" "secret1") eq_refl)
    as (_ & HR & _ & HP & _).
  split; [exact HR|exact HP].
Defined.

(** C5, the failing input evaluated: a PDF chosen through the file picker is
    not an image, yet [handleFileChange] of both components takes it (no
    toast, pending avatar and preview set), while the same file dropped on
    the drop zone is turned down with "Please upload an image file". *)
Theorem C5_file_picker_takes_non_image :
  is_image resume_pdf = false /\
  accepts_in_Register (Register.handleFileChange (Some resume_pdf))
    (register_world (register_form "secret1" "secret1" None)) resume_pdf /\
  accepts_in_ProfileCreation (ProfileCreation.handleFileChange (Some resume_pdf))
    (profile_world "secret1" "secret1") resume_pdf /\
  rejects_in_Register (Register.handleDrop (Some resume_pdf))
    (register_world (register_form "secret1" "secret1" None))
    "Please upload an image file" /\
  rejects_in_ProfileCreation (ProfileCreation.handleDrop (Some resume_pdf))
    (profile_world "secret1" "secret1")
    "Please upload an image file".
Proof.
  split; [reflexivity|]. split; [|split; [|split]].
  - by apply Register_handleFileUpload_fits.
  - by apply ProfileCreation_handleFileUpload_fits.
  - apply Register_handleDrop_not_image. by intros file [= <-].
  - apply ProfileCreation_handleDrop_not_image. by intros file [= <-].
Qed.

(** ** Preview object URLs *)

(** Explicit removal releases the preview. *)
Lemma Register_removeAvatar_releases (w : World Register.State) (u : ObjectURL) :
  Register.previewUrl (comp w) = Some u ->
  (u ∉ object_urls (env (exec Register.removeAvatar w))) /\
  Register.previewUrl (comp (exec Register.removeAvatar w)) = None /\
  Register.avatar (Register.formData (comp (exec Register.removeAvatar w))) = None /\
  (leaked_in_Register (exec Register.removeAvatar w) ⊆ leaked_in_Register w).
Proof.
  intros H. unfold leaked_in_Register, exec, Register.removeAvatar.
  unfold mbind, M_bind, get_comp. simpl. rewrite H. simpl.
  split; [|done].
  intros [_ Hn]%elem_of_difference. apply Hn. by apply elem_of_singleton.
Qed.

(** C6, the failing input evaluated: dropping a second image while a first
    one is pending replaces the preview without revoking the first object
    URL, which stays allocated; and unmounting with a pending preview revokes
    nothing. Explicit removal does revoke the preview it removes. *)
Theorem C6_replaced_preview_not_revoked :
  let w0 := register_world (register_form "secret1" "secret1" None) in
  let w1 := exec (Register.handleDrop (Some avatar_png)) w0 in
  let w2 := exec (Register.handleDrop (Some avatar_jpg)) w1 in
  Register.previewUrl (comp w1) = Some 0%nat /\
  Register.previewUrl (comp w2) = Some 1%nat /\
  (0%nat ∈ object_urls (env w2)) /\
  leaked_in_Register w2 = {[ 0%nat ]} /\
  object_urls (env (exec Register.unmount w1)) = {[ 0%nat ]} /\
  object_urls (env (exec Register.removeAvatar w1)) = ∅.
Proof.
  cbv zeta. split; [reflexivity|]. split; [reflexivity|].
  split; [|split; [|split]].
  - simpl. set_solver.
  - unfold leaked_in_Register. simpl. set_solver.
  - simpl. set_solver.
  - simpl. set_solver.
Qed.

(** ** Registration, then the avatar *)

Section Registration.
Variable B : Backend.

Lemma avatar_events_quiet (fd : Register.FormData) (newUser : option User) :
  forallb (fun ev => negb (is_register_or_toast ev)) (avatar_events B fd newUser) = true.
Proof.
  unfold avatar_events. destruct newUser as [u|], (Register.avatar fd) as [file|]; try done.
  simpl. destruct (uploadFile_answer B _ _ _) as [err|url]; [done|].
  destruct (truthy_str url); [|done]. simpl.
  by destruct (update_answer B _ _).
Qed.

Lemma handleRegister_rejected (w : World Register.State) (error : Thrown) :
  let fd := Register.formData (comp w) in
  Register.password fd = Register.confirmPassword fd ->
  register_answer B (Register.email fd) (Register.password fd)
                  (Register.display_name fd) = Some error ->
  emitted (Register.handleRegister B) w
    (ERegister (Register.email fd) (Register.password fd) (Register.display_name fd)
     :: match error with
        | Some msg =>
            [EToastError (if truthy_str msg then msg
                          else "An error occurred during registration")]
        | None => []
        end) /\
  Register.currentStep (comp (exec (Register.handleRegister B) w))
    = Register.currentStep (comp w) /\
  Register.formData (comp (exec (Register.handleRegister B) w)) = fd /\
  Register.loading (comp (exec (Register.handleRegister B) w)) = false /\
  (Register.handleRegister B w).1
  = match error with
    | Some _ => inr tt
    | None => inl type_error
    end.
Proof.
  intros fd Hpw Hans. subst fd.
  unfold emitted, exec, Register.handleRegister.
  unfold mbind, M_bind, get_comp. simpl.
  unfold try_finally, try_catch. simpl.
  rewrite decide_False by (intros Hne; by apply Hne).
  unfold Register.auth_register, mbind, M_bind. simpl.
  rewrite Hans. destruct error as [msg|]; simpl; by rewrite <- ?app_assoc.
Qed.

Lemma handleRegister_resolved (w : World Register.State) :
  let fd := Register.formData (comp w) in
  Register.password fd = Register.confirmPassword fd ->
  register_answer B (Register.email fd) (Register.password fd)
                  (Register.display_name fd) = None ->
  emitted (Register.handleRegister B) w
    (ERegister (Register.email fd) (Register.password fd) (Register.display_name fd)
     :: EGetUser :: avatar_events B fd (getUser_answer B)) /\
  Register.currentStep (comp (exec (Register.handleRegister B) w)) = subscription /\
  Register.formData (comp (exec (Register.handleRegister B) w)) = fd /\
  Register.loading (comp (exec (Register.handleRegister B) w)) = false /\
  (Register.handleRegister B w).1 = inr tt.
Proof.
  intros fd Hpw Hans. subst fd.
  unfold emitted, exec, Register.handleRegister.
  unfold mbind, M_bind, get_comp. simpl.
  unfold try_finally, try_catch. simpl.
  rewrite decide_False by (intros Hne; by apply Hne).
  unfold Register.auth_register, mbind, M_bind. simpl.
  rewrite Hans. simpl. unfold avatar_events.
  destruct (getUser_answer B) as [u|]; simpl;
    [|by rewrite <- !app_assoc].
  destruct (Register.avatar (Register.formData (comp w))) as [file|] eqn:Hav; simpl;
    [|by rewrite <- !app_assoc].
  unfold Register.uploadAvatar. rewrite Hav.
  unfold try_catch, Register.storage_uploadFile, mbind, M_bind. simpl.
  destruct (uploadFile_answer B _ _ _) as [err|url]; simpl;
    [by rewrite <- !app_assoc|].
  destruct (truthy_str url); simpl; [|by rewrite <- !app_assoc].
  destruct (update_answer B _ _); simpl; by rewrite <- !app_assoc.
Qed.

End Registration.

(** C7: with matching passwords, [handleRegister] first calls the identity
    provider's register operation. When that call is rejected, nothing is
    uploaded and the step does not change (an error toast is shown). When it
    resolves, the avatar upload and the profile update, if any, come after it
    in the trace, and whatever blob storage and the profile update answer,
    the registration is not undone (no further register call, no toast) and
    the step becomes [subscription]. In every run an upload is preceded by a
    register call that resolved. *)
Theorem C7_avatar_after_registration (B : Backend) (w : World Register.State) :
  let fd := Register.formData (comp w) in
  let call := ERegister (Register.email fd) (Register.password fd)
                        (Register.display_name fd) in
  let answer := register_answer B (Register.email fd) (Register.password fd)
                                (Register.display_name fd) in
  Register.password fd = Register.confirmPassword fd ->
  exists evs,
    emitted (Register.handleRegister B) w (call :: evs) /\
    (forall msg, answer = Some msg ->
       (forall bucket path file, EUploadFile bucket path file ∉ evs) /\
       (forall id url, EUpdateAvatarUrl id url ∉ evs) /\
       Register.currentStep (comp (exec (Register.handleRegister B) w))
         = Register.currentStep (comp w)) /\
    (answer = None ->
       forallb (fun ev => negb (is_register_or_toast ev)) evs = true /\
       Register.currentStep (comp (exec (Register.handleRegister B) w)) = subscription) /\
    (forall bucket path file,
       EUploadFile bucket path file ∈ evs -> answer = None).
Proof.
  intros fd call answer Hpw.
  destruct answer as [msg|] eqn:Hans; subst answer.
  - destruct (handleRegister_rejected B w msg Hpw Hans) as (Hev & Hstep & _).
    eexists. split; [exact Hev|].
    split; [|split].
    + intros msg' _. split; [|split; [|exact Hstep]].
      * intros bucket path file Hin%list_elem_of_In. destruct msg; simpl in Hin.
        -- destruct Hin as [Hin|[]]. discriminate.
        -- destruct Hin.
      * intros id url Hin%list_elem_of_In. destruct msg; simpl in Hin.
        -- destruct Hin as [Hin|[]]. discriminate.
        -- destruct Hin.
    + discriminate.
    + intros bucket path file Hin%list_elem_of_In. destruct msg; simpl in Hin.
      * destruct Hin as [Hin|[]]. discriminate.
      * destruct Hin.
  - destruct (handleRegister_resolved B w Hpw Hans) as (Hev & Hstep & _).
    eexists. split; [exact Hev|].
    split; [|split].
    + discriminate.
    + intros _. split; [|exact Hstep]. simpl. apply avatar_events_quiet.
    + done.
Qed.

Example handleRegister_all_ok :
  trace (env (exec (Register.handleRegister backend_ok) with_avatar_world))
  = [ERegister "ada@example.org" "secret1" "Ada"; EGetUser;
     EUploadFile "avatars" "u1/0.42.png" avatar_png;
     EUpdateAvatarUrl "u1" "https://cdn.example.org/u1/0.42.png"] /\
  Register.currentStep (comp (exec (Register.handleRegister backend_ok) with_avatar_world))
  = subscription.
Proof. split; reflexivity. Qed.

Example handleRegister_upload_fails :
  trace (env (exec (Register.handleRegister backend_upload_fails) with_avatar_world))
  = [ERegister "ada@example.org" "secret1" "Ada"; EGetUser;
     EUploadFile "avatars" "u1/0.42.png" avatar_png;
     EConsoleError "Error uploading avatar:"] /\
  Register.currentStep
    (comp (exec (Register.handleRegister backend_upload_fails) with_avatar_world))
  = subscription.
Proof. split; reflexivity. Qed.

Example handleRegister_update_fails :
  trace (env (exec (Register.handleRegister backend_update_fails) with_avatar_world))
  = [ERegister "ada@example.org" "secret1" "Ada"; EGetUser;
     EUploadFile "avatars" "u1/0.42.png" avatar_png;
     EUpdateAvatarUrl "u1" "https://cdn.example.org/u1/0.42.png";
     EConsoleError "Error updating profile with avatar:"] /\
  Register.currentStep
    (comp (exec (Register.handleRegister backend_update_fails) with_avatar_world))
  = subscription.
Proof. split; reflexivity. Qed.

Example handleRegister_rejected_run :
  trace (env (exec (Register.handleRegister backend_register_rejected) with_avatar_world))
  = [ERegister "ada@example.org" "secret1" "Ada";
     EToastError "User already registered"] /\
  Register.currentStep
    (comp (exec (Register.handleRegister backend_register_rejected) with_avatar_world))
  = account.
Proof. split; reflexivity. Qed.

Lemma C7_avatar_after_registration_witness :
  exists evs,
    emitted (Register.handleRegister backend_upload_fails) with_avatar_world
      (ERegister "ada@example.org" "secret1" "Ada" :: evs) /\
    Register.currentStep
      (comp (exec (Register.handleRegister backend_upload_fails) with_avatar_world))
    = subscription.
Proof.
  destruct (C7_avatar_after_registration backend_upload_fails with_avatar_world eq_refl)
    as (evs & Hev & _ & Hok & _).
  exists evs. split; [exact Hev|]. exact (proj2 (Hok eq_refl)).
Defined.

(** ** Order of the subscription tiers *)











Example unsorted_table_rendered_ascending :
  map Register.card_key
      (Register.render_tiers subscription_state
         (Register.subscriptionTiers_data
            (Register.subscriptionTiers_queryFn
               (store_select [tier_b; tier_a] Register.subscriptionTiers_query) None)))
  = ["a"; "b"].
Proof. reflexivity. Qed.

Example sorted_answer_rendered_sorted :
  map Register.card_key
      (Register.render_tiers subscription_state (value [tier_a; tier_b]))
  = ["a"; "b"] /\
  ascending (map Register.card_price
               (Register.render_tiers subscription_state (value [tier_a; tier_b])))
  = true.
Proof. split; reflexivity. Qed.

(** ** Further properties of the location parameters *)

Lemma usp_count_delete (k : string) (ps : SearchParams) :
  usp_count k (usp_delete k ps) = 0%nat.
Proof.
  unfold usp_count, usp_delete. induction ps as [|[k0 v0] rest IH]; [done|].
  rewrite filter_cons. simpl. destruct (decide (k0 <> k)) as [Hne|Heq]; [|exact IH].
  rewrite filter_cons. simpl. rewrite decide_False by done. exact IH.
Qed.

Lemma usp_delete_absent (k : string) (ps : SearchParams) :
  usp_count k ps = 0%nat -> usp_delete k ps = ps.
Proof.
  unfold usp_count, usp_delete. induction ps as [|[k0 v0] rest IH]; [done|].
  rewrite !filter_cons. simpl. destruct (decide (k0 = k)) as [->|Hne]; simpl.
  - discriminate.
  - intros H. rewrite decide_True by done. by rewrite IH.
Qed.

Lemma usp_count_set (k v : string) (ps : SearchParams) :
  usp_count k (usp_set k v ps) = 1%nat.
Proof.
  induction ps as [|[k0 v0] rest IH]; simpl.
  - unfold usp_count. rewrite filter_cons. simpl. by rewrite decide_True.
  - destruct (decide (k0 = k)) as [->|Hne].
    + unfold usp_count. rewrite filter_cons. simpl. rewrite decide_True by done.
      simpl. f_equal. apply usp_count_delete.
    + unfold usp_count in *. rewrite filter_cons. simpl.
      by rewrite decide_False.
Qed.

Lemma usp_set_set (k v : string) (ps : SearchParams) :
  usp_set k v (usp_set k v ps) = usp_set k v ps.
Proof.
  induction ps as [|[k0 v0] rest IH]; simpl.
  - by rewrite decide_True.
  - destruct (decide (k0 = k)) as [->|Hne]; simpl.
    + rewrite decide_True by done. f_equal.
      apply usp_delete_absent, usp_count_delete.
    + rewrite decide_False by done. by rewrite IH.
Qed.

(** X1: reloading the page at the location the URL effect wrote brings the
    wizard back on the step it was on, whatever that step and whatever other
    parameters the location carries. *)
Theorem reload_restores_step (w : World Register.State) :
  Register.currentStep
    (comp (Register.mount (env (exec Register.effect_sync_url w))))
  = Register.currentStep (comp w).
Proof.
  destruct (mount_spec (env (exec Register.effect_sync_url w))) as (Hc & _).
  rewrite Hc. simpl. apply initial_step_of_url.
  destruct (effect_sync_url_in_sync w) as (Hs & Hcomp & _).
  unfold url_in_sync in Hs. by rewrite Hcomp in Hs.
Qed.

(** X2: a location without a [step] parameter, or with one that is not
    exactly one of the three step names, opens the wizard on the account
    step. *)
Theorem unknown_step_opens_account (e : Env) :
  (usp_get "step" (location_search e) = None \/
   exists v, usp_get "step" (location_search e) = Some v /\
             v <> "account" /\ v <> "subscription" /\ v <> "services") ->
  Register.currentStep (comp (Register.mount e)) = account.
Proof.
  destruct (mount_spec e) as (Hc & _). rewrite Hc. simpl.
  unfold Register.initial_step.
  intros [->|(v & -> & Ha & Hs & Hv)]; [done|].
  unfold Register.step_of_name. by rewrite !decide_False.
Qed.

Lemma unknown_step_opens_account_witness :
  Register.currentStep
    (comp (Register.mount (env_at "/register" [("step", "Services")] ∅))) = account /\
  Register.currentStep
    (comp (Register.mount (env_at "/register" [("tab", "services")] ∅))) = account.
Proof.
  split.
  - apply unknown_step_opens_account. right. exists "Services".
    repeat split; discriminate.
  - apply unknown_step_opens_account. left. reflexivity.
Defined.

Lemma usp_delete_set (k v : string) (ps : SearchParams) :
  usp_delete k (usp_set k v ps) = usp_delete k ps.
Proof.
  induction ps as [|[k0 v0] rest IH]; simpl.
  - unfold usp_delete. rewrite filter_cons. simpl. by rewrite decide_False by tauto.
  - destruct (decide (k0 = k)) as [->|Hne].
    + unfold usp_delete at 1 3. rewrite !filter_cons. simpl.
      rewrite !decide_False by tauto.
      apply usp_delete_absent, usp_count_delete.
    + unfold usp_delete in *. rewrite !filter_cons. simpl.
      rewrite !decide_True by done. by rewrite IH.
Qed.

(** X3: the URL effect keeps every other query parameter: the pairs whose
    name is not [step] are the same after it, in number, order and value
    (so a name given twice keeps both values, and [get] reads what it read
    before). It leaves exactly one [step] parameter even when the location
    carried several, and running it again changes nothing. *)
Theorem url_effect_is_clean (w : World Register.State) :
  (forall k, k <> "step" ->
     usp_get k (location_search (env (exec Register.effect_sync_url w)))
     = usp_get k (location_search (env w))) /\
  filter (fun p => p.1 <> "step")
         (location_search (env (exec Register.effect_sync_url w)))
  = filter (fun p => p.1 <> "step") (location_search (env w)) /\
  usp_count "step" (location_search (env (exec Register.effect_sync_url w))) = 1%nat /\
  exec Register.effect_sync_url (exec Register.effect_sync_url w)
  = exec Register.effect_sync_url w.
Proof.
  unfold exec, Register.effect_sync_url. simpl. split; [|split; [|split]].
  - intros k Hk. by apply usp_get_set_ne.
  - apply usp_delete_set.
  - apply usp_count_set.
  - by rewrite usp_set_set.
Qed.

(** ** Further properties of the form handlers *)

Lemma Register_field_with_field (n m : InputName) (v : string) (fd : Register.FormData) :
  Register.field m (Register.with_field n v fd)
  = if decide (m = n) then v else Register.field m fd.
Proof. by destruct n, m. Qed.

Lemma ProfileCreation_field_with_field
    (n m : InputName) (v : string) (fd : ProfileCreation.ProfileFormData) :
  ProfileCreation.field m (ProfileCreation.with_field n v fd)
  = if decide (m = n) then v else ProfileCreation.field m fd.
Proof. by destruct n, m. Qed.

(** X4: typing into one input of the account form sets that field to the
    typed value and leaves the other three fields, the selected tier, the
    pending avatar, its preview, the step and the environment as they were;
    likewise in [ProfileCreation]. *)
Theorem handleChange_touches_one_field
    (n : InputName) (v : string)
    (w : World Register.State) (p : World ProfileCreation.State) :
  ((forall m,
      Register.field m (Register.formData (comp (exec (Register.handleChange n v) w)))
      = if decide (m = n) then v else Register.field m (Register.formData (comp w))) /\
   Register.selectedTier (Register.formData (comp (exec (Register.handleChange n v) w)))
     = Register.selectedTier (Register.formData (comp w)) /\
   Register.avatar (Register.formData (comp (exec (Register.handleChange n v) w)))
     = Register.avatar (Register.formData (comp w)) /\
   Register.previewUrl (comp (exec (Register.handleChange n v) w))
     = Register.previewUrl (comp w) /\
   Register.currentStep (comp (exec (Register.handleChange n v) w))
     = Register.currentStep (comp w) /\
   env (exec (Register.handleChange n v) w) = env w) /\
  ((forall m,
      ProfileCreation.field m
        (ProfileCreation.formData (comp (exec (ProfileCreation.handleChange n v) p)))
      = if decide (m = n) then v
        else ProfileCreation.field m (ProfileCreation.formData (comp p))) /\
   ProfileCreation.avatar
     (ProfileCreation.formData (comp (exec (ProfileCreation.handleChange n v) p)))
     = ProfileCreation.avatar (ProfileCreation.formData (comp p)) /\
   ProfileCreation.previewUrl (comp (exec (ProfileCreation.handleChange n v) p))
     = ProfileCreation.previewUrl (comp p) /\
   env (exec (ProfileCreation.handleChange n v) p) = env p).
Proof.
  split.
  - split; [intros m; apply Register_field_with_field|]. by destruct n.
  - split; [intros m; apply ProfileCreation_field_with_field|]. by destruct n.
Qed.

(** X5: of two edits of the same input the later one wins, and edits of
    different inputs can be made in either order. *)
Theorem handleChange_edits_compose
    (n m : InputName) (v v' : string) (w : World Register.State) :
  exec (Register.handleChange n v') (exec (Register.handleChange n v) w)
  = exec (Register.handleChange n v') w /\
  (n <> m ->
   exec (Register.handleChange m v') (exec (Register.handleChange n v) w)
   = exec (Register.handleChange n v) (exec (Register.handleChange m v') w)).
Proof.
  split.
  - by destruct n.
  - intros Hne. destruct n, m; done.
Qed.

Lemma handleChange_edits_compose_witness :
  exec (Register.handleChange email_input "ada@example.org")
       (exec (Register.handleChange password_input "secret1")
             (register_world Register.initial_formData))
  = exec (Register.handleChange password_input "secret1")
         (exec (Register.handleChange email_input "ada@example.org")
               (register_world Register.initial_formData)).
Proof.
  apply (proj2 (handleChange_edits_compose password_input email_input
                  "secret1" "ada@example.org"
                  (register_world Register.initial_formData))).
  discriminate.
Defined.

Lemma handleSubmit_match (w : World ProfileCreation.State) :
  let fd := ProfileCreation.formData (comp w) in
  ProfileCreation.password fd = ProfileCreation.confirmPassword fd ->
  emitted ProfileCreation.handleSubmit w
    [EOnSubmit (ProfileCreation.email fd) (ProfileCreation.display_name fd)
               (ProfileCreation.password fd) (ProfileCreation.confirmPassword fd)
               (ProfileCreation.avatar fd)] /\
  comp (exec ProfileCreation.handleSubmit w) = comp w.
Proof.
  intros fd Hpw. subst fd. unfold emitted, exec, ProfileCreation.handleSubmit.
  unfold mbind, M_bind, get_comp. simpl.
  rewrite decide_False by (intros Hne; by apply Hne). done.
Qed.

(** X6: when the two password inputs hold the same text, submitting sends
    what was typed: [handleRegister] calls the identity provider with the
    typed e-mail, password and display name before anything else, and
    [ProfileCreation.handleSubmit] hands [onSubmit] the typed fields
    together with the pending avatar, once, without a toast. *)
Theorem submit_sends_what_was_typed
    (B : Backend) (d e pw : string)
    (w : World Register.State) (p : World ProfileCreation.State) :
  (exists evs,
     emitted (Register.handleRegister B) (exec (fill_account_form d e pw pw) w)
       (ERegister e pw d :: evs)) /\
  emitted ProfileCreation.handleSubmit (exec (fill_profile_form d e pw pw) p)
    [EOnSubmit e d pw pw (ProfileCreation.avatar (ProfileCreation.formData (comp p)))].
Proof.
  split.
  - set (w' := exec (fill_account_form d e pw pw) w).
    destruct (register_answer B e pw d) as [msg|] eqn:Hans.
    + destruct (handleRegister_rejected B w' msg eq_refl Hans) as (Hev & _).
      eexists. exact Hev.
    + destruct (handleRegister_resolved B w' eq_refl Hans) as (Hev & _).
      eexists. exact Hev.
  - exact (proj1 (handleSubmit_match (exec (fill_profile_form d e pw pw) p) eq_refl)).
Qed.

(** X7: the back arrow goes back one step and one only: from the services
    step to the subscription step (not on to the account step), from the
    subscription step to the account step; it keeps the form, the preview and
    the environment. *)
Theorem back_goes_one_step (w : World Register.State) :
  Register.currentStep (comp (exec Register.handleBack w))
  = match Register.currentStep (comp w) with
    | services => subscription
    | subscription => account
    | account => account
    end /\
  Register.formData (comp (exec Register.handleBack w)) = Register.formData (comp w) /\
  Register.previewUrl (comp (exec Register.handleBack w)) = Register.previewUrl (comp w) /\
  env (exec Register.handleBack w) = env w.
Proof.
  unfold exec, Register.handleBack. unfold mbind, M_bind, get_comp. simpl.
  destruct (Register.currentStep (comp w)) eqn:E; simpl; done.
Qed.

(** X8: the continue button of the subscription step leads to the services
    step exactly when a tier id that is not the empty string is selected;
    selecting such a tier and continuing reaches the services step, and
    selecting a tier changes nothing but the selection. *)
Theorem continue_needs_a_tier (tierId : string) (w : World Register.State) :
  (Register.continue_disabled (comp w) = true ->
     exec Register.handleContinue w = w) /\
  (Register.continue_disabled (comp w) = false ->
     Register.currentStep (comp (exec Register.handleContinue w)) = services) /\
  (tierId <> "" ->
     Register.currentStep
       (comp (exec (Register.handleSelectTier tierId ;; Register.handleContinue) w))
     = services) /\
  Register.selectedTier
    (Register.formData (comp (exec (Register.handleSelectTier tierId) w))) = tierId /\
  Register.with_selectedTier
    (Register.selectedTier (Register.formData (comp w)))
    (Register.formData (comp (exec (Register.handleSelectTier tierId) w)))
  = Register.formData (comp w) /\
  Register.currentStep (comp (exec (Register.handleSelectTier tierId) w))
  = Register.currentStep (comp w).
Proof.
  split; [|split; [|split; [|split; [|split]]]].
  - intros H. unfold exec, Register.handleContinue, mbind, M_bind, get_comp. simpl.
    rewrite H. simpl. by destruct w.
  - intros H. unfold exec, Register.handleContinue, mbind, M_bind, get_comp. simpl.
    by rewrite H.
  - intros Hne. unfold exec, Register.handleContinue, Register.handleSelectTier.
    unfold mbind, M_bind, get_comp. simpl. unfold Register.continue_disabled. simpl.
    destruct tierId; [done|]. done.
  - done.
  - simpl. by destruct (Register.formData (comp w)).
  - done.
Qed.

Lemma continue_needs_a_tier_witness :
  Register.currentStep
    (comp (exec (Register.handleSelectTier "b" ;; Register.handleContinue)
                {| comp := subscription_state; env := env_at "/register" [] ∅ |}))
  = services /\
  exec Register.handleContinue
       {| comp := subscription_state; env := env_at "/register" [] ∅ |}
  = {| comp := subscription_state; env := env_at "/register" [] ∅ |}.
Proof.
  pose proof (continue_needs_a_tier "b"
                {| comp := subscription_state; env := env_at "/register" [] ∅ |})
    as (Hdis & _ & Hsel & _).
  split; [apply Hsel; discriminate|apply Hdis; reflexivity].
Defined.

(** X9: the subscription step shows one card per tier returned, none while
    the tiers are not there, and after a tier is selected the selection ring
    is on exactly the cards whose key is the selected id. *)
Theorem selection_ring_follows_selection
    (tierId : string) (w : World Register.State) (tiers : list SubscriptionTier) :
  length (Register.render_tiers (comp w) (value tiers)) = length tiers /\
  Register.render_tiers (comp w) undefined = [] /\
  Register.render_tiers (comp w) null = [] /\
  (forall card,
     card ∈ Register.render_tiers
              (comp (exec (Register.handleSelectTier tierId) w)) (value tiers) ->
     Register.card_selected card = true <-> Register.card_key card = tierId).
Proof.
  split; [|split; [done|split; [done|]]].
  - simpl. by rewrite length_map.
  - intros card Hin. simpl in Hin.
    apply list_elem_of_fmap in Hin as (tier & -> & _). simpl.
    rewrite bool_decide_eq_true. split; intros H; by symmetry.
Qed.

(** ** Further properties of registration *)

Lemma append_cons (c : ascii) (s t : string) : String c s ++ t = String c (s ++ t).
Proof. reflexivity. Qed.

Lemma append_nil_l (t : string) : "" ++ t = t.
Proof. reflexivity. Qed.

Lemma free_of_app (c : ascii) (s t : string) :
  free_of c (s ++ t) = free_of c s && free_of c t.
Proof.
  induction s as [|c' s IH]; [done|].
  rewrite append_cons. simpl. rewrite IH. by destruct (Ascii.eqb c' c).
Qed.

Lemma append_assoc (s t u : string) : (s ++ t) ++ u = s ++ (t ++ u).
Proof.
  induction s as [|c s IH]; [done|]. rewrite !append_cons. by rewrite IH.
Qed.

Lemma append_empty_r (s : string) : s ++ "" = s.
Proof.
  induction s as [|c s IH]; [done|]. rewrite append_cons. by rewrite IH.
Qed.

Lemma split_pop_from_no_dot (acc s : string) :
  free_of "." s = true -> split_pop_from acc s = acc ++ s.
Proof.
  revert acc. induction s as [|c s IH]; intros acc; simpl.
  - intros _. by rewrite append_empty_r.
  - destruct (Ascii.eqb c ".") eqn:E; simpl; [discriminate|].
    intros H. rewrite IH by done. rewrite append_assoc.
    by rewrite append_cons, append_nil_l.
Qed.

Lemma split_pop_from_free (acc s : string) :
  free_of "." acc = true -> free_of "." (split_pop_from acc s) = true.
Proof.
  revert acc. induction s as [|c s IH]; intros acc Hacc; simpl; [done|].
  destruct (Ascii.eqb c ".") eqn:E.
  - by apply IH.
  - apply IH. rewrite free_of_app, Hacc. simpl. by rewrite E.
Qed.

Lemma split_pop_from_dot (acc base ext : string) :
  split_pop_from acc (base ++ "." ++ ext) = split_pop_from "" ext.
Proof.
  revert acc. induction base as [|c base IH]; intros acc.
  - rewrite append_nil_l, append_cons, append_nil_l. reflexivity.
  - rewrite append_cons. simpl. destruct (Ascii.eqb c "."); apply IH.
Qed.

(** X10: the extension [uploadAvatar] takes from a file name is what follows
    the last dot: it never contains a dot, it is the given extension for a
    name of the form base.ext, and for a name without a dot it is the whole
    name. *)
Theorem split_pop_is_last_segment (base ext : string) :
  free_of "." (split_pop base) = true /\
  (free_of "." ext = true -> split_pop (base ++ "." ++ ext) = ext) /\
  (free_of "." base = true -> split_pop base = base).
Proof.
  split; [|split].
  - by apply split_pop_from_free.
  - intros H. unfold split_pop. rewrite split_pop_from_dot.
    by rewrite split_pop_from_no_dot.
  - intros H. unfold split_pop. by rewrite split_pop_from_no_dot.
Qed.

Lemma split_pop_is_last_segment_witness :
  split_pop ("holiday.2024" ++ "." ++ "jpeg") = "jpeg" /\
  split_pop "avatar" = "avatar".
Proof.
  split.
  - apply (proj1 (proj2 (split_pop_is_last_segment "holiday.2024" "jpeg"))).
    reflexivity.
  - apply (proj2 (proj2 (split_pop_is_last_segment "avatar" ""))). reflexivity.
Defined.

Lemma first_segment_app (a b : string) :
  free_of "/" a = true -> first_segment (a ++ "/" ++ b) = a.
Proof.
  induction a as [|c a IH]; [done|].
  rewrite append_cons. simpl.
  destruct (Ascii.eqb c "/"); simpl; [discriminate|].
  intros H. by rewrite IH.
Qed.

(** X11: [uploadAvatar] never throws. Without a pending avatar it returns
    [null] and calls nothing; with one it makes a single upload to the
    [avatars] bucket under a path whose folder is the user id (for an id
    without a slash), and returns the public URL, or [null] after logging
    when the storage throws. It leaves the component state alone. *)
Theorem uploadAvatar_is_best_effort
    (B : Backend) (fd : Register.FormData) (userId : string)
    (w : World Register.State) :
  (Register.avatar fd = None ->
     Register.uploadAvatar B fd userId w = (inr None, w)) /\
  (forall file,
     Register.avatar fd = Some file ->
     exists path,
       (free_of "/" userId = true -> first_segment path = userId) /\
       comp (exec (Register.uploadAvatar B fd userId) w) = comp w /\
       match uploadFile_answer B "avatars" path file with
       | inr url =>
           (Register.uploadAvatar B fd userId w).1 = inr (Some url) /\
           emitted (Register.uploadAvatar B fd userId) w
             [EUploadFile "avatars" path file]
       | inl _ =>
           (Register.uploadAvatar B fd userId w).1 = inr None /\
           emitted (Register.uploadAvatar B fd userId) w
             [EUploadFile "avatars" path file;
              EConsoleError "Error uploading avatar:"]
       end).
Proof.
  split.
  - intros H. unfold Register.uploadAvatar. by rewrite H.
  - intros file H.
    exists (userId ++ "/" ++ random_token B ++ "." ++ split_pop (file_name file)).
    split; [intros Hfree; by apply first_segment_app|].
    unfold emitted, exec, Register.uploadAvatar. rewrite H.
    unfold try_catch, Register.storage_uploadFile, mbind, M_bind. simpl.
    destruct (uploadFile_answer B _ _ _) as [err|url]; simpl.
    + split; [done|]. split; [done|]. by rewrite <- app_assoc.
    + done.
Qed.

Lemma uploadAvatar_is_best_effort_witness :
  Register.uploadAvatar backend_ok (register_form "secret1" "secret1" None) "u1"
    with_avatar_world
  = (inr None, with_avatar_world) /\
  exists path,
    first_segment path = "u1" /\
    emitted (Register.uploadAvatar backend_upload_fails
               (register_form "secret1" "secret1" (Some avatar_png)) "u1")
            with_avatar_world
      [EUploadFile "avatars" path avatar_png; EConsoleError "Error uploading avatar:"].
Proof.
  split.
  - apply (proj1 (uploadAvatar_is_best_effort backend_ok
                    (register_form "secret1" "secret1" None) "u1" with_avatar_world)).
    reflexivity.
  - destruct (proj2 (uploadAvatar_is_best_effort backend_upload_fails
                       (register_form "secret1" "secret1" (Some avatar_png)) "u1"
                       with_avatar_world) avatar_png eq_refl)
      as (path & Hseg & _ & Hrun).
    exists path. split; [by apply Hseg|]. exact (proj2 Hrun).
Defined.

(** What [handleRegister] leaves behind, however it ends. *)
Lemma handleRegister_settles (B : Backend) (w : World Register.State) :
  exists r w',
    Register.handleRegister B w = (r, w') /\
    Register.loading (comp w') = false /\
    Register.formData (comp w') = Register.formData (comp w) /\
    Register.previewUrl (comp w') = Register.previewUrl (comp w) /\
    Register.isDragging (comp w') = Register.isDragging (comp w) /\
    (Register.currentStep (comp w') = Register.currentStep (comp w) \/
     Register.currentStep (comp w') = subscription) /\
    object_urls (env w') = object_urls (env w) /\
    object_url_counter (env w') = object_url_counter (env w) /\
    location_search (env w') = location_search (env w) /\
    sessionStorage (env w') = sessionStorage (env w) /\
    exists evs, trace (env w') = (trace (env w) ++ evs)%list.
Proof.
  unfold Register.handleRegister.
  unfold mbind, M_bind, get_comp. simpl.
  unfold try_finally, try_catch. simpl.
  destruct (decide _) as [Hne|Heq]; simpl.
  { do 2 eexists. split; [reflexivity|]. simpl. repeat split; eauto. }
  unfold Register.auth_register, mbind, M_bind. simpl.
  destruct (register_answer B _ _ _) as [[msg|]|]; simpl.
  { do 2 eexists. split; [reflexivity|]. simpl. repeat split; eauto.
    rewrite <- app_assoc. eauto. }
  { do 2 eexists. split; [reflexivity|]. simpl. repeat split; eauto. }
  destruct (getUser_answer B) as [u|]; simpl;
    [|do 2 eexists; split; [reflexivity|]; simpl; repeat split; eauto;
      rewrite <- !app_assoc; eauto].
  destruct (Register.avatar (Register.formData (comp w))) as [file|] eqn:Hav; simpl;
    [|do 2 eexists; split; [reflexivity|]; simpl; repeat split; eauto;
      rewrite <- !app_assoc; eauto].
  unfold Register.uploadAvatar. rewrite Hav.
  unfold try_catch, Register.storage_uploadFile, mbind, M_bind. simpl.
  destruct (uploadFile_answer B _ _ _) as [err|url]; simpl;
    [do 2 eexists; split; [reflexivity|]; simpl; repeat split; eauto;
      rewrite <- !app_assoc; eauto|].
  destruct (truthy_str url); simpl;
    [|do 2 eexists; split; [reflexivity|]; simpl; repeat split; eauto;
      rewrite <- !app_assoc; eauto].
  destruct (update_answer B _ _); simpl;
    do 2 eexists; (split; [reflexivity|]); simpl; repeat split; eauto;
    rewrite <- !app_assoc; eauto.
Qed.

(** How [handleRegister] ends: it returns, unless the passwords match and
    [register] rejected with [null] or [undefined]. *)
Lemma handleRegister_result (B : Backend) (w : World Register.State) :
  let fd := Register.formData (comp w) in
  (Register.handleRegister B w).1
  = if decide (Register.password fd = Register.confirmPassword fd) then
      match register_answer B (Register.email fd) (Register.password fd)
                            (Register.display_name fd) with
      | Some None => inl type_error
      | _ => inr tt
      end
    else inr tt.
Proof.
  intros fd.
  destruct (decide (Register.password fd = Register.confirmPassword fd)) as [Hpw|Hpw].
  - destruct (register_answer B (Register.email fd) (Register.password fd)
                (Register.display_name fd)) as [error|] eqn:Hans.
    + destruct (handleRegister_rejected B w error Hpw Hans) as (_ & _ & _ & _ & Hr).
      rewrite Hr. by destruct error.
    + by destruct (handleRegister_resolved B w Hpw Hans) as (_ & _ & _ & _ & Hr).
  - by rewrite (handleRegister_mismatch B w Hpw).
Qed.

(** X12: [handleRegister] settles whatever the collaborators answer. It
    returns, except in one case: when the passwords match and [register]
    rejects with [null] or [undefined], the [catch] block's read of
    [error.message] throws a [TypeError], and no toast is shown. However it
    ends, [loading] is off again, the form, the preview, the object URLs, the
    location and the session storage are as before, the trace has only
    grown, and the step is the one it was or [subscription]. *)
Theorem handleRegister_always_settles (B : Backend) (w : World Register.State) :
  let fd := Register.formData (comp w) in
  let w' := exec (Register.handleRegister B) w in
  ((Register.handleRegister B w).1 = inl type_error <->
   Register.password fd = Register.confirmPassword fd /\
   register_answer B (Register.email fd) (Register.password fd)
                   (Register.display_name fd) = Some None) /\
  ((Register.handleRegister B w).1 = inr tt \/
   (Register.handleRegister B w).1 = inl type_error) /\
  ((Register.handleRegister B w).1 = inl type_error ->
   emitted (Register.handleRegister B) w
     [ERegister (Register.email fd) (Register.password fd)
                (Register.display_name fd)] /\
   Register.currentStep (comp w') = Register.currentStep (comp w)) /\
  Register.loading (comp w') = false /\
  Register.formData (comp w') = Register.formData (comp w) /\
  Register.previewUrl (comp w') = Register.previewUrl (comp w) /\
  (Register.currentStep (comp w') = Register.currentStep (comp w) \/
   Register.currentStep (comp w') = subscription) /\
  object_urls (env w') = object_urls (env w) /\
  location_search (env w') = location_search (env w) /\
  sessionStorage (env w') = sessionStorage (env w) /\
  exists evs, trace (env w') = (trace (env w) ++ evs)%list.
Proof.
  cbv zeta.
  assert (Hthrows :
    (Register.handleRegister B w).1 = inl type_error <->
    Register.password (Register.formData (comp w))
      = Register.confirmPassword (Register.formData (comp w)) /\
    register_answer B (Register.email (Register.formData (comp w)))
      (Register.password (Register.formData (comp w)))
      (Register.display_name (Register.formData (comp w))) = Some None).
  { rewrite handleRegister_result.
    destruct (decide _) as [Hpw|Hpw].
    - destruct (register_answer B _ _ _) as [[msg|]|]; split;
        try discriminate; try done; intros [_ [=]].
    - split; [discriminate|]. by intros [Heq _]. }
  split; [exact Hthrows|]. split.
  { rewrite handleRegister_result. destruct (decide _); [|by left].
    destruct (register_answer B _ _ _) as [[msg|]|]; (by left) || (by right). }
  split.
  { intros [Hpw Hans]%Hthrows.
    destruct (handleRegister_rejected B w None Hpw Hans) as (Hev & Hstep & _).
    by split. }
  unfold exec.
  destruct (handleRegister_settles B w)
    as (r & w' & -> & Hl & Hf & Hp & _ & Hs & Ho & _ & Hloc & Hss & Ht).
  simpl. repeat split; assumption.
Qed.

Lemma handleRegister_always_settles_witness :
  (Register.handleRegister backend_register_rejects_null with_avatar_world).1
    = inl type_error /\
  emitted (Register.handleRegister backend_register_rejects_null) with_avatar_world
    [ERegister "ada@example.org" "secret1" "Ada"].
Proof.
  pose proof (handleRegister_always_settles backend_register_rejects_null
                with_avatar_world) as (Hthrows & _ & Hquiet & _).
  assert (H : (Register.handleRegister backend_register_rejects_null
                 with_avatar_world).1 = inl type_error)
    by (apply Hthrows; split; reflexivity).
  split; [exact H|]. exact (proj1 (Hquiet H)).
Defined.

Lemma avatar_events_routing
    (B : Backend) (fd : Register.FormData) (newUser : option User) :
  (forall bucket path file,
     EUploadFile bucket path file ∈ avatar_events B fd newUser ->
     bucket = "avatars" /\
     Register.avatar fd = Some file /\
     exists u, newUser = Some u /\
               (free_of "/" (user_id u) = true -> first_segment path = user_id u)) /\
  (forall id url,
     EUpdateAvatarUrl id url ∈ avatar_events B fd newUser ->
     exists u path file,
       newUser = Some u /\ id = user_id u /\
       EUploadFile "avatars" path file ∈ avatar_events B fd newUser /\
       uploadFile_answer B "avatars" path file = inr url /\
       url <> "").
Proof.
  unfold avatar_events.
  destruct newUser as [u|], (Register.avatar fd) as [file|];
    try (split; intros; exfalso; eapply not_elem_of_nil; eassumption).
  set (path := user_id u ++ "/" ++ random_token B ++ "." ++ split_pop (file_name file)).
  split.
  - intros bucket path' file' Hin.
    apply elem_of_cons in Hin as [[= -> -> ->]|Hin].
    + split; [done|]. split; [done|]. exists u. split; [done|].
      intros Hfree. by apply first_segment_app.
    + exfalso. destruct (uploadFile_answer B "avatars" path file) as [err|url].
      * apply elem_of_cons in Hin as [Hin|Hin]; [discriminate|].
        by apply not_elem_of_nil in Hin.
      * destruct (truthy_str url); [|by apply not_elem_of_nil in Hin].
        apply elem_of_cons in Hin as [Hin|Hin]; [discriminate|].
        destruct (update_answer B (user_id u) url).
        -- apply elem_of_cons in Hin as [Hin|Hin]; [discriminate|].
           by apply not_elem_of_nil in Hin.
        -- by apply not_elem_of_nil in Hin.
  - intros id url Hin.
    apply elem_of_cons in Hin as [Hin|Hin]; [discriminate|].
    destruct (uploadFile_answer B "avatars" path file) as [err|url'] eqn:Hup.
    + apply elem_of_cons in Hin as [Hin|Hin]; [discriminate|].
      by apply not_elem_of_nil in Hin.
    + destruct (truthy_str url') eqn:Htr; [|by apply not_elem_of_nil in Hin].
      apply elem_of_cons in Hin as [[= -> ->]|Hin].
      * exists u, path, file. split; [done|]. split; [done|].
        split; [apply elem_of_cons; by left|]. split; [done|].
        intros ->. discriminate.
      * exfalso. destruct (update_answer B (user_id u) url').
        -- apply elem_of_cons in Hin as [Hin|Hin]; [discriminate|].
           by apply not_elem_of_nil in Hin.
        -- by apply not_elem_of_nil in Hin.
Qed.

(** X13: after a registration that resolved, whatever [handleRegister]
    uploads goes to the [avatars] bucket, is the pending avatar, and lies in
    the folder of the user the identity provider reports (for an id without a
    slash); and the profile row whose avatar URL is updated is that same
    user's, with the non-empty public URL the storage returned. *)
Theorem avatar_goes_to_the_new_user (B : Backend) (w : World Register.State) :
  let fd := Register.formData (comp w) in
  Register.password fd = Register.confirmPassword fd ->
  register_answer B (Register.email fd) (Register.password fd)
                  (Register.display_name fd) = None ->
  exists evs,
    emitted (Register.handleRegister B) w
      (ERegister (Register.email fd) (Register.password fd) (Register.display_name fd)
       :: EGetUser :: evs) /\
    (forall bucket path file,
       EUploadFile bucket path file ∈ evs ->
       bucket = "avatars" /\
       Register.avatar fd = Some file /\
       exists u, getUser_answer B = Some u /\
                 (free_of "/" (user_id u) = true -> first_segment path = user_id u)) /\
    (forall id url,
       EUpdateAvatarUrl id url ∈ evs ->
       exists u path file,
         getUser_answer B = Some u /\ id = user_id u /\
         EUploadFile "avatars" path file ∈ evs /\
         uploadFile_answer B "avatars" path file = inr url /\
         url <> "").
Proof.
  intros fd Hpw Hans.
  destruct (handleRegister_resolved B w Hpw Hans) as (Hev & _).
  exists (avatar_events B fd (getUser_answer B)). split; [exact Hev|].
  apply avatar_events_routing.
Qed.

Lemma avatar_goes_to_the_new_user_witness :
  exists evs,
    emitted (Register.handleRegister backend_ok) with_avatar_world
      (ERegister "ada@example.org" "secret1" "Ada" :: EGetUser :: evs) /\
    (forall bucket path file,
       EUploadFile bucket path file ∈ evs ->
       bucket = "avatars" /\ file = avatar_png /\ first_segment path = "u1").
Proof.
  destruct (avatar_goes_to_the_new_user backend_ok with_avatar_world eq_refl eq_refl)
    as (evs & Hev & Hup & _).
  exists evs. split; [exact Hev|].
  intros bucket path file Hin.
  destruct (Hup bucket path file Hin) as (Hb & Hf & u & Hu & Hseg).
  split; [exact Hb|]. split; [by injection Hf|].
  injection Hu as <-. by apply Hseg.
Defined.

(** ** Further properties of the avatar handlers *)

Lemma Register_handleFileUpload_keeps_match (file : File) (w : World Register.State) :
  preview_matches_avatar (comp w) ->
  preview_matches_avatar (comp (exec (Register.handleFileUpload file) w)).
Proof.
  unfold preview_matches_avatar. run_handler.
  destruct (too_large file); simpl; [done|]. intros _. split; eauto.
Qed.

Lemma Register_handleDrop_keeps_match (files0 : option File) (w : World Register.State) :
  preview_matches_avatar (comp w) ->
  preview_matches_avatar (comp (exec (Register.handleDrop files0) w)).
Proof.
  unfold preview_matches_avatar. run_handler.
  destruct files0 as [file|]; [|done].
  destruct (is_image file); [|done]. run_handler.
  destruct (too_large file); simpl; [done|]. intros _. split; eauto.
Qed.

Lemma Register_removeAvatar_clears (w : World Register.State) :
  Register.previewUrl (comp (exec Register.removeAvatar w)) = None /\
  Register.avatar (Register.formData (comp (exec Register.removeAvatar w))) = None.
Proof.
  unfold exec, Register.removeAvatar, mbind, M_bind, get_comp. simpl.
  by destruct (Register.previewUrl (comp w)).
Qed.

Lemma ProfileCreation_removeAvatar_clears (w : World ProfileCreation.State) :
  ProfileCreation.previewUrl (comp (exec ProfileCreation.removeAvatar w)) = None /\
  ProfileCreation.avatar
    (ProfileCreation.formData (comp (exec ProfileCreation.removeAvatar w))) = None.
Proof.
  unfold exec, ProfileCreation.removeAvatar, mbind, M_bind, get_comp. simpl.
  by destruct (ProfileCreation.previewUrl (comp w)).
Qed.

Lemma none_matches_none {A B} (x : option A) (y : option B) :
  x = None -> y = None -> is_Some x <-> is_Some y.
Proof. intros -> ->. split; intros [? [=]]. Qed.

(** X14: a preview is shown exactly when an avatar is pending. This holds of
    the initial state of both components and every avatar handler keeps it:
    the file picker, the drop zone, the remove button, and typing into the
    form. *)
Theorem preview_goes_with_avatar
    (files0 : option File) (n : InputName) (v : string)
    (w : World Register.State) (p : World ProfileCreation.State) :
  (forall ps, preview_matches_avatar (Register.initial_state ps)) /\
  preview_matches_avatar_in_ProfileCreation ProfileCreation.initial_state /\
  (preview_matches_avatar (comp w) ->
     preview_matches_avatar (comp (exec (Register.handleFileChange files0) w)) /\
     preview_matches_avatar (comp (exec (Register.handleDrop files0) w)) /\
     preview_matches_avatar (comp (exec (Register.handleChange n v) w))) /\
  preview_matches_avatar (comp (exec Register.removeAvatar w)) /\
  (preview_matches_avatar_in_ProfileCreation (comp p) ->
     preview_matches_avatar_in_ProfileCreation
       (comp (exec (ProfileCreation.handleFileChange files0) p)) /\
     preview_matches_avatar_in_ProfileCreation
       (comp (exec (ProfileCreation.handleDrop files0) p)) /\
     preview_matches_avatar_in_ProfileCreation
       (comp (exec (ProfileCreation.handleChange n v) p))) /\
  preview_matches_avatar_in_ProfileCreation (comp (exec ProfileCreation.removeAvatar p)).
Proof.
  split; [|split; [|split; [|split; [|split]]]].
  - intros ps. by apply none_matches_none.
  - by apply none_matches_none.
  - intros H. split; [|split].
    + destruct files0 as [file|]; [|exact H].
      by apply Register_handleFileUpload_keeps_match.
    + by apply Register_handleDrop_keeps_match.
    + unfold preview_matches_avatar in *. by destruct n.
  - destruct (Register_removeAvatar_clears w) as [H1 H2].
    by apply none_matches_none.
  - intros H. unfold preview_matches_avatar_in_ProfileCreation in *.
    split; [|split].
    + destruct files0 as [file|]; [|exact H]. run_handler.
      destruct (too_large file); simpl; [done|]. split; eauto.
    + run_handler. destruct files0 as [file|]; [|done].
      destruct (is_image file); [|done]. run_handler.
      destruct (too_large file); simpl; [done|]. split; eauto.
    + by destruct n.
  - destruct (ProfileCreation_removeAvatar_clears p) as [H1 H2].
    by apply none_matches_none.
Qed.

Lemma preview_goes_with_avatar_witness :
  preview_matches_avatar
    (comp (exec (Register.handleDrop (Some avatar_png))
                (register_world (register_form "secret1" "secret1" None)))).
Proof.
  pose proof (preview_goes_with_avatar (Some avatar_png) email_input ""
                (register_world (register_form "secret1" "secret1" None))
                (profile_world "secret1" "secret1")) as (_ & _ & H & _).
  apply H. by apply none_matches_none.
Defined.

(** X15: choosing a file and then removing it leaks nothing: starting without
    a preview, an accepted file followed by the remove button leaves no
    pending avatar, no preview, and the same set of object URLs as before. *)
Theorem select_then_remove_leaks_nothing (file : File) (w : World Register.State) :
  urls_fresh (env w) ->
  Register.previewUrl (comp w) = None ->
  too_large file = false ->
  let w' := exec (Register.handleFileUpload file ;; Register.removeAvatar) w in
  object_urls (env w') = object_urls (env w) /\
  leaked_in_Register w' = leaked_in_Register w /\
  Register.previewUrl (comp w') = None /\
  Register.avatar (Register.formData (comp w')) = None.
Proof.
  intros Hfresh Hprev Hfit. cbv zeta.
  unfold leaked_in_Register, exec, Register.removeAvatar. run_handler.
  rewrite Hfit. simpl. rewrite Hprev.
  assert (Hnew : object_url_counter (env w) ∉ object_urls (env w)).
  { intros Hin. apply Hfresh in Hin. lia. }
  assert (Heq : ({[object_url_counter (env w)]} ∪ object_urls (env w))
                  ∖ {[object_url_counter (env w)]} = object_urls (env w)).
  { apply set_eq. intros u.
    rewrite elem_of_difference, elem_of_union, !elem_of_singleton.
    split; [tauto|]. intros Hu. split; [by right|]. by intros ->. }
  split; [exact Heq|]. split; [exact Heq|]. done.
Qed.

Lemma select_then_remove_leaks_nothing_witness :
  object_urls
    (env (exec (Register.handleFileUpload avatar_png ;; Register.removeAvatar)
               (register_world (register_form "secret1" "secret1" None))))
  = ∅.
Proof.
  apply (select_then_remove_leaks_nothing avatar_png
           (register_world (register_form "secret1" "secret1" None))).
  - intros u Hu. by apply not_elem_of_empty in Hu.
  - reflexivity.
  - reflexivity.
Defined.

(** X16: a drop always ends the dragging highlight, accepted or not; a drop
    that carries no file shows "Please upload an image file" and changes
    nothing else; a file dialog closed without a file does nothing at all. *)
Theorem empty_selection_is_harmless
    (files0 : option File) (w : World Register.State) (p : World ProfileCreation.State) :
  Register.isDragging (comp (exec (Register.handleDrop files0) w)) = false /\
  ProfileCreation.isDragging (comp (exec (ProfileCreation.handleDrop files0) p)) = false /\
  rejects_in_Register (Register.handleDrop None) w "Please upload an image file" /\
  rejects_in_ProfileCreation (ProfileCreation.handleDrop None) p
    "Please upload an image file" /\
  Register.handleFileChange None w = (inr tt, w) /\
  ProfileCreation.handleFileChange None p = (inr tt, p).
Proof.
  split; [|split; [|split; [|split; [|split]]]]; try done.
  - run_handler. destruct files0 as [file|]; [|done].
    destruct (is_image file); [|done]. run_handler. by destruct (too_large file).
  - run_handler. destruct files0 as [file|]; [|done].
    destruct (is_image file); [|done]. run_handler. by destruct (too_large file).
Qed.

(** ** Further properties of the terminal button *)

(** X17: the terminal button reads "Go to App" exactly when it is enabled;
    while disabled it reads "Syncing Library..." if a fetched row has a null
    timestamp and "Connect a Service First" otherwise. *)
Theorem finish_label_tells_the_gate {A} (v : ServicesView A) :
  (finish_label v = "Go to App" <-> finish_disabled v = false) /\
  (finish_label v = "Syncing Library..." <-> isAnySyncing (syncStatuses v) = Some true) /\
  (finish_label v = "Connect a Service First" <->
     finish_disabled v = true /\ isAnySyncing (syncStatuses v) <> Some true).
Proof.
  unfold finish_label, finish_disabled, finish_disabled_prop.
  destruct (isAnySyncing (syncStatuses v)) as [[|]|];
    destruct (truthy_num (opt_length (connectedServices v))); simpl;
    repeat split; try done; try (intros [? ?]; done).
Qed.

(** ** The wizard over a session *)

Lemma dispatch_exec {A} (h : M Register.State A) (w : World Register.State) :
  exec (Register.dispatch h) w = exec Register.effect_sync_url (exec h w).
Proof.
  unfold exec, Register.dispatch, try_finally, mbind, M_bind. simpl.
  by destruct (h w) as [[err|a] w'].
Qed.

Lemma effect_sync_url_frame (w : World Register.State) :
  comp (exec Register.effect_sync_url w) = comp w /\
  trace (env (exec Register.effect_sync_url w)) = trace (env w) /\
  object_urls (env (exec Register.effect_sync_url w)) = object_urls (env w).
Proof. done. Qed.

Lemma dispatch_frame {A} (h : M Register.State A) (w : World Register.State) :
  comp (exec (Register.dispatch h) w) = comp (exec h w) /\
  trace (env (exec (Register.dispatch h) w)) = trace (env (exec h w)).
Proof. rewrite dispatch_exec. split; apply effect_sync_url_frame. Qed.

Local Ltac run_any :=
  unfold exec, Register.handleChange, Register.handleDragOver, Register.handleDragLeave,
    Register.handleDrop, Register.handleFileChange, Register.handleFileUpload,
    Register.removeAvatar, Register.handleSelectTier, Register.handleContinue,
    Register.handleServiceCardClick, Register.handleBack;
  unfold mbind, M_bind, get_comp; simpl.

Local Ltac grows :=
  first [ by (exists []; rewrite app_nil_r)
        | by (eexists; reflexivity) ].

(** What every handler but the submit handler leaves alone. *)
Lemma perform_frame (B : Backend) (a : Action) (w : World Register.State) :
  a <> Submit ->
  Register.loading (comp (exec (perform B a) w)) = Register.loading (comp w) /\
  (exists evs, trace (env (exec (perform B a) w)) = (trace (env w) ++ evs)%list) /\
  match a with
  | Continue | Back => True
  | _ => Register.currentStep (comp (exec (perform B a) w)) = Register.currentStep (comp w)
  end /\
  match a with
  | SelectTier _ => True
  | _ => Register.selectedTier (Register.formData (comp (exec (perform B a) w)))
         = Register.selectedTier (Register.formData (comp w))
  end.
Proof.
  intros Hns. destruct a; try done; simpl.
  - run_any. repeat split; [grows|by destruct n].
  - run_any. repeat split; grows.
  - run_any. repeat split; grows.
  - run_any. destruct files0 as [file|]; simpl; [|repeat split; grows].
    destruct (is_image file); simpl; [|repeat split; grows].
    run_any. destruct (too_large file); simpl; repeat split; grows.
  - run_any. destruct files0 as [file|]; simpl; [|repeat split; grows].
    run_any. destruct (too_large file); simpl; repeat split; grows.
  - run_any. destruct (Register.previewUrl (comp w)); simpl; repeat split; grows.
  - run_any. repeat split; grows.
  - run_any. destruct (Register.continue_disabled (comp w)); simpl; repeat split; grows.
  - run_any. destruct disabled; simpl; repeat split; grows.
  - run_any. destruct (Register.currentStep (comp w)); simpl; repeat split; grows.
Qed.

Lemma act_exec (B : Backend) (tiers : JsOpt (list SubscriptionTier))
    (a : Action) (w : World Register.State) :
  exec (act B tiers a) w
  = if available tiers (comp w) a
    then exec Register.effect_sync_url (exec (perform B a) w)
    else w.
Proof.
  unfold act, exec at 1. destruct (available tiers (comp w) a); [|done].
  apply dispatch_exec.
Qed.

(** The moves of the step an action can make. *)
Lemma act_moves (B : Backend) (tiers : JsOpt (list SubscriptionTier))
    (a : Action) (w : World Register.State) :
  let st := Register.currentStep (comp w) in
  let st' := Register.currentStep (comp (exec (act B tiers a) w)) in
  st' = st \/
  (a = Submit /\ st = account /\ st' = subscription) \/
  (a = Continue /\ st = subscription /\ st' = services /\
   Register.continue_disabled (comp w) = false) \/
  (a = Back /\ st = services /\ st' = subscription) \/
  (a = Back /\ st = subscription /\ st' = account).
Proof.
  cbv zeta. rewrite act_exec.
  destruct (available tiers (comp w) a) eqn:Hav; [|by left].
  rewrite (proj1 (effect_sync_url_frame _)).
  assert (a = Submit \/ a <> Submit) as [->|Hns]
    by (destruct a; (by left) || (by right)).
  - simpl in Hav. apply andb_prop in Hav as [Hst%bool_decide_eq_true _].
    destruct (handleRegister_settles B w) as (r & w' & Hrun & _ & _ & _ & _ & Hstep & _).
    simpl. unfold exec. rewrite Hrun. simpl.
    destruct Hstep as [Hsame | Hsub]; [by left|]. right. left. by rewrite Hst.
  - destruct (perform_frame B a w Hns) as (_ & _ & Hstep & _).
    destruct a; try (by left); try done.
    + simpl in Hav. apply andb_prop in Hav as [Hst%bool_decide_eq_true Hen].
      apply negb_true_iff in Hen.
      right. right. left. simpl. run_any. by rewrite Hen.
    + simpl. run_any.
      destruct (Register.currentStep (comp w)) eqn:Hst; simpl; [by left|..].
      * right. right. right. by right.
      * right. right. right. by left.
Qed.

(** X18: no action on the page skips a step. An action leaves the step where
    it is or moves it to a neighbouring one: forward only by the submit
    button from the account step and by the enabled continue button from the
    subscription step, backward only by the back arrow, one step at a
    time. *)
Theorem steps_never_skip (B : Backend) (tiers : JsOpt (list SubscriptionTier))
    (a : Action) (w : World Register.State) :
  same_or_adjacent (Register.currentStep (comp w))
                   (Register.currentStep (comp (exec (act B tiers a) w))) /\
  ((Register.step_index (Register.currentStep (comp w))
    < Register.step_index (Register.currentStep (comp (exec (act B tiers a) w))))%nat ->
   (a = Submit /\ Register.currentStep (comp w) = account) \/
   (a = Continue /\ Register.currentStep (comp w) = subscription)) /\
  ((Register.step_index (Register.currentStep (comp (exec (act B tiers a) w)))
    < Register.step_index (Register.currentStep (comp w)))%nat ->
   a = Back).
Proof.
  unfold same_or_adjacent.
  destruct (act_moves B tiers a w)
    as [->|[(-> & -> & ->)|[(-> & -> & -> & _)|[(-> & -> & ->)|(-> & -> & ->)]]]];
    simpl; repeat split; try lia; intros; try lia; auto.
Qed.

Lemma act_keeps_tier_chosen (B : Backend) (tiers : JsOpt (list SubscriptionTier))
    (a : Action) (w : World Register.State) :
  tier_chosen_at_services w -> tier_chosen_at_services (exec (act B tiers a) w).
Proof.
  unfold tier_chosen_at_services. intros IH. rewrite act_exec.
  destruct (available tiers (comp w) a) eqn:Hav; [|exact IH].
  rewrite (proj1 (effect_sync_url_frame _)).
  assert (a = Submit \/ a <> Submit) as [->|Hns]
    by (destruct a; (by left) || (by right)).
  - simpl in Hav. apply andb_prop in Hav as [Hst%bool_decide_eq_true _].
    destruct (handleRegister_settles B w) as (r & w' & Hrun & _ & _ & _ & _ & Hstep & _).
    simpl. unfold exec. rewrite Hrun. simpl.
    destruct Hstep as [Hsame | Hsub]; intros Hs; congruence.
  - destruct (perform_frame B a w Hns) as (_ & _ & Hstep & Hsel).
    destruct a; try done; try (rewrite Hstep, Hsel; exact IH).
    + simpl in Hav. apply andb_prop in Hav as [Hst%bool_decide_eq_true _].
      rewrite Hstep, Hst. discriminate.
    + simpl in Hav. apply andb_prop in Hav as [_ Hen]. apply negb_true_iff in Hen.
      intros _. rewrite Hsel. unfold Register.continue_disabled in Hen.
      by apply negb_false_iff in Hen.
    + simpl. run_any.
      destruct (Register.currentStep (comp w)) eqn:Hst; simpl; rewrite ?Hst; discriminate.
Qed.

Lemma act_keeps_registered (B : Backend) (tiers : JsOpt (list SubscriptionTier))
    (a : Action) (w : World Register.State) :
  registered_beyond_account B w -> registered_beyond_account B (exec (act B tiers a) w).
Proof.
  unfold registered_beyond_account. intros IH. rewrite act_exec.
  destruct (available tiers (comp w) a) eqn:Hav; [|exact IH].
  rewrite (proj1 (effect_sync_url_frame _)).
  rewrite (proj1 (proj2 (effect_sync_url_frame _))).
  assert (a = Submit \/ a <> Submit) as [->|Hns]
    by (destruct a; (by left) || (by right)).
  - simpl in Hav. apply andb_prop in Hav as [Hst%bool_decide_eq_true _]. simpl.
    set (fd := Register.formData (comp w)).
    destruct (decide (Register.password fd = Register.confirmPassword fd)) as [Hpw|Hpw].
    + destruct (register_answer B (Register.email fd) (Register.password fd)
                  (Register.display_name fd)) as [msg|] eqn:Hans.
      * destruct (handleRegister_rejected B w msg Hpw Hans) as (_ & Hstep & _).
        intros Hna. congruence.
      * destruct (handleRegister_resolved B w Hpw Hans) as (Hev & _).
        intros _. exists (Register.email fd), (Register.password fd),
                         (Register.display_name fd).
        split; [|exact Hans]. unfold emitted in Hev. rewrite Hev.
        apply elem_of_app. right. apply elem_of_cons. by left.
    + unfold exec. rewrite (handleRegister_mismatch B w Hpw). simpl.
      intros Hna. congruence.
  - destruct (perform_frame B a w Hns) as (_ & (evs & Htr) & Hstep & _).
    intros Hna.
    assert (Hbefore : Register.currentStep (comp w) <> account).
    { destruct a; try done; try (by rewrite <- Hstep).
      - simpl in Hav. apply andb_prop in Hav as [Hst%bool_decide_eq_true _].
        congruence.
      - simpl in Hav. apply negb_true_iff, bool_decide_eq_false in Hav. exact Hav. }
    destruct (IH Hbefore) as (e & p & d & Hin & Hans).
    exists e, p, d. split; [|exact Hans]. rewrite Htr. apply elem_of_app. by left.
Qed.

Lemma act_keeps_url_in_sync (B : Backend) (tiers : JsOpt (list SubscriptionTier))
    (a : Action) (w : World Register.State) :
  url_in_sync w -> url_in_sync (exec (act B tiers a) w).
Proof.
  intros IH. rewrite act_exec.
  destruct (available tiers (comp w) a) eqn:Hav; [|exact IH].
  apply effect_sync_url_in_sync.
Qed.

(** X19: in a session that starts where the invariant holds, such as a fresh
    entry without a step parameter, the services step is only ever shown with
    a tier selected: whatever the user does, and whatever the collaborators
    answer, a state on the services step has a non-empty [selectedTier]. *)
Theorem services_step_has_a_tier (B : Backend) (tiers : JsOpt (list SubscriptionTier))
    (actions : list Action) (w : World Register.State) :
  tier_chosen_at_services w -> tier_chosen_at_services (run B tiers actions w).
Proof.
  revert w. induction actions as [|a rest IH]; intros w Hw; simpl; [exact Hw|].
  apply IH. by apply act_keeps_tier_chosen.
Qed.

(** X20: in such a session the wizard is past the account step only after a
    register call that resolved: the trace then holds a call to the identity
    provider's register operation that the provider accepted. *)
Theorem past_account_means_registered
    (B : Backend) (tiers : JsOpt (list SubscriptionTier))
    (actions : list Action) (w : World Register.State) :
  registered_beyond_account B w -> registered_beyond_account B (run B tiers actions w).
Proof.
  revert w. induction actions as [|a rest IH]; intros w Hw; simpl; [exact Hw|].
  apply IH. by apply act_keeps_registered.
Qed.

(** X21: throughout a session the [step] parameter of the location names the
    step on screen: it does so after every action, whichever handler ran and
    however it ended. *)
Theorem session_keeps_url_in_sync
    (B : Backend) (tiers : JsOpt (list SubscriptionTier))
    (actions : list Action) (w : World Register.State) :
  url_in_sync w -> url_in_sync (run B tiers actions w).
Proof.
  revert w. induction actions as [|a rest IH]; intros w Hu; simpl; [done|].
  apply IH. by apply act_keeps_url_in_sync.
Qed.

Example whole_wizard_reaches_services :
  Register.currentStep (comp (run backend_ok two_tiers whole_wizard fresh_entry))
    = services /\
  Register.selectedTier
    (Register.formData (comp (run backend_ok two_tiers whole_wizard fresh_entry)))
    = "b" /\
  trace (env (run backend_ok two_tiers whole_wizard fresh_entry))
    = [ERegister "ada@example.org" "secret1" "Ada"; EGetUser;
       EUploadFile "avatars" "u1/0.42.png" avatar_png;
       EUpdateAvatarUrl "u1" "https://cdn.example.org/u1/0.42.png"] /\
  usp_get "step" (location_search (env (run backend_ok two_tiers whole_wizard fresh_entry)))
    = Some "services".
Proof. repeat split. Qed.

Example rejected_registration_stays_on_account :
  Register.currentStep
    (comp (run backend_register_rejected two_tiers whole_wizard fresh_entry))
  = account.
Proof. reflexivity. Qed.

Example deep_link_skips_the_tier :
  Register.currentStep (comp (Register.mount deep_link_services)) = services /\
  Register.selectedTier (Register.formData (comp (Register.mount deep_link_services)))
    = "".
Proof. split; reflexivity. Qed.

Lemma services_step_has_a_tier_witness :
  tier_chosen_at_services (run backend_ok two_tiers whole_wizard fresh_entry).
Proof.
  apply (services_step_has_a_tier backend_ok two_tiers whole_wizard fresh_entry).
  unfold tier_chosen_at_services. simpl. discriminate.
Defined.

Lemma past_account_means_registered_witness :
  registered_beyond_account backend_ok
    (run backend_ok two_tiers whole_wizard fresh_entry).
Proof.
  apply (past_account_means_registered backend_ok two_tiers whole_wizard fresh_entry).
  unfold registered_beyond_account. simpl. intros H. by destruct H.
Defined.

Lemma session_keeps_url_in_sync_witness :
  url_in_sync (run backend_ok two_tiers whole_wizard fresh_entry).
Proof.
  apply (session_keeps_url_in_sync backend_ok two_tiers whole_wizard fresh_entry).
  reflexivity.
Defined.

(** ** The playlist card *)

Lemma usp_get_app (k : string) (l1 l2 : SearchParams) :
  usp_get k (l1 ++ l2)
  = match usp_get k l1 with
    | Some v => Some v
    | None => usp_get k l2
    end.
Proof.
  induction l1 as [|[k0 v0] rest IH]; simpl; [done|].
  by destruct (decide (k0 = k)).
Qed.

Lemma fold_insert_lookup (k : string) (ps : SearchParams) (obj : gmap string string) :
  fold_left (fun obj p => <[p.1 := p.2]> obj) ps obj !! k
  = match usp_get k (reverse ps) with
    | Some v => Some v
    | None => obj !! k
    end.
Proof.
  revert obj. induction ps as [|[k0 v0] rest IH]; intros obj; simpl; [done|].
  rewrite IH, reverse_cons, usp_get_app. simpl.
  destruct (usp_get k (reverse rest)) as [v|]; [done|].
  destruct (decide (k0 = k)) as [->|Hne].
  - by rewrite lookup_insert_eq.
  - by rewrite lookup_insert_ne.
Qed.

Lemma usp_get_Some_elem (k v : string) (ps : SearchParams) :
  usp_get k ps = Some v -> (k, v) ∈ ps.
Proof.
  induction ps as [|[k0 v0] rest IH]; simpl; [discriminate|].
  destruct (decide (k0 = k)) as [->|Hne].
  - intros [= ->]. apply elem_of_cons. by left.
  - intros H. apply elem_of_cons. right. by apply IH.
Qed.

Lemma usp_get_NoDup (k v : string) (ps : SearchParams) :
  NoDup ps.*1 -> (k, v) ∈ ps -> usp_get k ps = Some v.
Proof.
  induction ps as [|[k0 v0] rest IH]; simpl.
  - intros _ Hin. by apply not_elem_of_nil in Hin.
  - intros Hnd Hin. apply NoDup_cons in Hnd as [Hnotin Hnd].
    apply elem_of_cons in Hin as [[= -> ->]|Hin].
    + by rewrite decide_True.
    + destruct (decide (k0 = k)) as [->|Hne]; [|by apply IH].
      exfalso. apply Hnotin. apply list_elem_of_fmap. by exists (k, v).
Qed.

Lemma usp_get_reverse (k : string) (ps : SearchParams) :
  NoDup ps.*1 -> usp_get k (reverse ps) = usp_get k ps.
Proof.
  intros Hnd.
  assert (Hrev : NoDup (reverse ps).*1) by (by rewrite fmap_reverse, reverse_Permutation).
  destruct (usp_get k ps) as [v|] eqn:E.
  - apply usp_get_NoDup; [done|]. apply elem_of_reverse_2. by apply usp_get_Some_elem.
  - destruct (usp_get k (reverse ps)) as [v|] eqn:E'; [|done].
    apply usp_get_Some_elem in E'. apply (proj1 (elem_of_reverse _ _)) in E'.
    apply (usp_get_NoDup k v ps Hnd) in E'. congruence.
Qed.

(** X22: outside selection mode, or without an [onSelect] prop, a click on
    the card navigates once to [/playlist/<id>] with the playlist's service
    and with [previousParams] built from the current query parameters: every
    parameter name is kept with its last value, which is the value
    [searchParams.get] reads whenever no name occurs twice. *)
Theorem click_keeps_the_query
    (props : PlaylistCard.Props) (p : PlaylistCard.NormalizedPlaylist)
    (searchParams : SearchParams) :
  truthy_bool (PlaylistCard.isSelectionMode props) && PlaylistCard.onSelect props = false ->
  exists previousParams,
    PlaylistCard.handleClick props p searchParams
    = [PlaylistCard.Navigate ("/playlist/" ++ PlaylistCard.playlist_id p)
         (PlaylistCard.service p) previousParams] /\
    (forall k, previousParams !! k = usp_get k (reverse searchParams)) /\
    (NoDup searchParams.*1 -> forall k, previousParams !! k = usp_get k searchParams).
Proof.
  intros Hmode. exists (PlaylistCard.fromEntries searchParams).
  unfold PlaylistCard.handleClick. rewrite Hmode. split; [done|].
  assert (Hlast : forall k,
             PlaylistCard.fromEntries searchParams !! k
             = usp_get k (reverse searchParams)).
  { intros k. unfold PlaylistCard.fromEntries. rewrite fold_insert_lookup.
    by destruct (usp_get k (reverse searchParams)). }
  split; [exact Hlast|].
  intros Hnd k. rewrite Hlast. by apply usp_get_reverse.
Qed.

Lemma click_keeps_the_query_witness :
  exists previousParams,
    PlaylistCard.handleClick browsing a_playlist [("view", "grid"); ("view", "list")]
    = [PlaylistCard.Navigate "/playlist/37i9dQ" "spotify" previousParams] /\
    previousParams !! "view" = Some "list".
Proof.
  destruct (click_keeps_the_query browsing a_playlist
              [("view", "grid"); ("view", "list")] eq_refl)
    as (m & Hrun & Hlast & _).
  exists m. split; [exact Hrun|]. by rewrite Hlast.
Defined.

(** X23: in selection mode the card only selects: with an [onSelect] prop a
    click calls it with the playlist and does not navigate, the transfer
    button is not there and hovering prefetches nothing. Without the prop a
    click still navigates; and a card without a playlist does nothing. *)
Theorem selection_mode_only_selects
    (props : PlaylistCard.Props) (p : PlaylistCard.NormalizedPlaylist)
    (searchParams : SearchParams) (u : option User) :
  PlaylistCard.isSelectionMode props = Some true ->
  (PlaylistCard.onSelect props = true ->
     PlaylistCard.handleClick props p searchParams = [PlaylistCard.OnSelect p]) /\
  (PlaylistCard.onSelect props = false ->
     exists previousParams,
       PlaylistCard.handleClick props p searchParams
       = [PlaylistCard.Navigate ("/playlist/" ++ PlaylistCard.playlist_id p)
            (PlaylistCard.service p) previousParams]) /\
  PlaylistCard.handleTransferClick props p = [] /\
  PlaylistCard.handleMouseEnter props p u = [] /\
  (PlaylistCard.playlist props = None -> PlaylistCard.click props searchParams = []).
Proof.
  intros Hmode.
  unfold PlaylistCard.handleClick, PlaylistCard.handleTransferClick,
    PlaylistCard.handleMouseEnter, PlaylistCard.click.
  rewrite Hmode. simpl. split; [|split; [|split; [|split]]].
  - by intros ->.
  - intros ->. by eexists.
  - done.
  - by destruct u.
  - by intros ->.
Qed.

Lemma selection_mode_only_selects_witness :
  PlaylistCard.handleClick selecting a_playlist [("view", "grid")]
  = [PlaylistCard.OnSelect a_playlist].
Proof.
  apply (proj1 (selection_mode_only_selects selecting a_playlist [("view", "grid")]
                  None eq_refl)).
  reflexivity.
Defined.

(** X24: without a signed-in user the sync-status query is disabled and its
    function returns [null] whatever the store holds, so nothing is polled,
    no sync is seen in progress, and the terminal button is enabled exactly
    when a service is connected. *)
Theorem signed_out_sees_no_sync {A}
    (u : option User) (cs : JsOpt (list A)) (rows : JsOpt (list SyncStatus)) :
  has_user_id u = false ->
  let v := {| user := u; connectedServices := cs;
              syncStatuses := syncStatuses_queryFn u rows |} in
  enabled (syncStatuses_options v) = false /\
  polling_interval (syncStatuses_options v) = None /\
  isAnySyncing (syncStatuses v) = None /\
  finish_disabled v = negb (truthy_num (opt_length cs)).
Proof.
  intros Hu. cbv zeta.
  unfold polling_interval, syncStatuses_options, syncStatuses_queryFn,
    finish_disabled, finish_disabled_prop. simpl. rewrite Hu. simpl.
  repeat split. by destruct (truthy_num (opt_length cs)).
Qed.

Lemma signed_out_sees_no_sync_witness :
  finish_disabled
    {| user := None; connectedServices := value ["spotify"];
       syncStatuses := syncStatuses_queryFn None (value [spotify_syncing]) |}
  = false.
Proof.
  exact (proj2 (proj2 (proj2
           (signed_out_sees_no_sync None (value ["spotify"]) (value [spotify_syncing])
              eq_refl)))).
Defined.

Lemma handleFileUpload_keeps_ok (file : File) (w : World Register.State) :
  avatar_state_ok w -> avatar_state_ok (exec (Register.handleFileUpload file) w).
Proof.
  unfold avatar_state_ok, preview_matches_avatar, urls_fresh, preview_is_live.
  intros (Hm & Hf & Hl). run_handler.
  destruct (too_large file); simpl; [done|].
  split; [split; eauto|]. split.
  - intros u [->%elem_of_singleton|Hu]%elem_of_union; [lia|].
    apply Hf in Hu. lia.
  - intros u [= <-]. apply elem_of_union. left. by apply elem_of_singleton.
Qed.

Lemma removeAvatar_keeps_ok (w : World Register.State) :
  avatar_state_ok w -> avatar_state_ok (exec Register.removeAvatar w).
Proof.
  unfold avatar_state_ok, preview_matches_avatar, urls_fresh, preview_is_live.
  intros (Hm & Hf & Hl). run_any.
  destruct (Register.previewUrl (comp w)) as [u0|] eqn:Hprev; simpl.
  - split; [by apply none_matches_none|]. split; [|done].
    intros u [Hu _]%elem_of_difference. by apply Hf.
  - split; [by apply none_matches_none|]. by split.
Qed.

Lemma act_keeps_avatar_ok (B : Backend) (tiers : JsOpt (list SubscriptionTier))
    (a : Action) (w : World Register.State) :
  avatar_state_ok w -> avatar_state_ok (exec (act B tiers a) w).
Proof.
  intros IH. rewrite act_exec.
  destruct (available tiers (comp w) a) eqn:Hav; [|exact IH].
  assert (Hstep : forall w1, avatar_state_ok w1 ->
                             avatar_state_ok (exec Register.effect_sync_url w1))
    by (intros w1 H1; exact H1).
  apply Hstep. clear Hstep Hav.
  destruct a; simpl.
  - destruct IH as (Hm & Hf & Hl). unfold avatar_state_ok. by destruct n.
  - exact IH.
  - exact IH.
  - unfold Register.handleDrop. unfold exec, mbind, M_bind. simpl.
    destruct files0 as [file|]; [|exact IH].
    destruct (is_image file); [|exact IH].
    apply (handleFileUpload_keeps_ok file (exec Register.handleDragLeave w)).
    exact IH.
  - destruct files0 as [file|]; [|exact IH]. by apply handleFileUpload_keeps_ok.
  - by apply removeAvatar_keeps_ok.
  - destruct (handleRegister_settles B w)
      as (r & w' & Hrun & _ & Hfd & Hp & _ & _ & Ho & Hc & _).
    unfold exec. rewrite Hrun. simpl.
    destruct IH as (Hm & Hf & Hl).
    unfold avatar_state_ok, preview_matches_avatar, urls_fresh, preview_is_live.
    rewrite Hfd, Hp, Ho, Hc. done.
  - exact IH.
  - run_any. by destruct (Register.continue_disabled (comp w)).
  - run_any. by destruct disabled.
  - run_any. by destruct (Register.currentStep (comp w)).
Qed.

(** X25: throughout a session a preview is on screen exactly when an avatar
    is pending, and the preview is an object URL that is still allocated:
    no handler revokes the URL of the preview it leaves on screen. *)
Theorem preview_stays_live (B : Backend) (tiers : JsOpt (list SubscriptionTier))
    (actions : list Action) (w : World Register.State) :
  avatar_state_ok w ->
  preview_matches_avatar (comp (run B tiers actions w)) /\
  preview_is_live (run B tiers actions w).
Proof.
  intros Hw.
  assert (H : avatar_state_ok (run B tiers actions w)).
  { revert w Hw. induction actions as [|a rest IH]; intros w Hw; simpl; [exact Hw|].
    apply IH. by apply act_keeps_avatar_ok. }
  destruct H as (Hm & _ & Hl). by split.
Qed.

Lemma preview_stays_live_witness :
  preview_matches_avatar (comp (run backend_ok two_tiers whole_wizard fresh_entry)) /\
  preview_is_live (run backend_ok two_tiers whole_wizard fresh_entry).
Proof.
  apply (preview_stays_live backend_ok two_tiers whole_wizard fresh_entry).
  split; [by apply none_matches_none|]. split.
  - intros u Hu. by apply not_elem_of_empty in Hu.
  - intros u Hu. discriminate Hu.
Defined.

(** ** Instances of the properties above *)

Example url_effect_keeps_repeated_parameters :
  location_search
    (env (exec Register.effect_sync_url
            {| comp := subscription_state;
               env := env_at "/register"
                        [("a", "1"); ("step", "account"); ("a", "2"); ("step", "services")]
                        ∅ |}))
  = [("a", "1"); ("step", "subscription"); ("a", "2")].
Proof. reflexivity. Qed.

Lemma url_effect_is_clean_witness :
  usp_get "ref" (location_search (env (exec Register.effect_sync_url tracked_link)))
  = Some "mail".
Proof.
  etrans; [apply (proj1 (url_effect_is_clean tracked_link) "ref"); discriminate|].
  reflexivity.
Defined.

Lemma selection_ring_follows_selection_witness :
  Register.card_selected card_b = true <-> Register.card_key card_b = "b".
Proof.
  apply (proj2 (proj2 (proj2
           (selection_ring_follows_selection "b" tracked_link [tier_a; tier_b])))).
  apply list_elem_of_In. simpl. right. left. reflexivity.
Defined.

Lemma finish_label_tells_the_gate_witness :
  finish_label (view_of (value ["spotify"]) (value [spotify_synced])) = "Go to App".
Proof.
  apply (proj2 (proj1 (finish_label_tells_the_gate
                         (view_of (value ["spotify"]) (value [spotify_synced]))))).
  reflexivity.
Defined.

Lemma steps_never_skip_witness :
  (Submit = Submit /\
   Register.currentStep (comp (register_world (register_form "secret1" "secret1" None)))
   = account) \/
  (Submit = Continue /\
   Register.currentStep (comp (register_world (register_form "secret1" "secret1" None)))
   = subscription).
Proof.
  apply (proj1 (proj2 (steps_never_skip backend_ok two_tiers Submit
                         (register_world (register_form "secret1" "secret1" None))))).
  simpl. lia.
Defined.
